(** * manest-server: the contact endpoint of [server.js]

    A shallow embedding of the request validator ([validatePayload]), the
    transport resolution ([getTransporter]) and the route handler of
    [POST /api/contact], with the properties the specification states
    about them.

    ECMAScript values are modelled as the code sees them: strings are
    sequences of UTF-16 code units, numbers are IEEE 754 binary64 values,
    objects are ordered lists of own properties.  The calls into
    [nodemailer] and [console] are effects: they are recorded in a trace,
    and what [nodemailer] answers is read from an explicit [world]. *)

From Stdlib Require Import List NArith ZArith Bool String Ascii Lia.
From Stdlib Require Import Floats.SpecFloat.
Import ListNotations.

Set Warnings "-register-all".

(** ** Strings *)

(** An ECMAScript string is a finite sequence of 16-bit code units. *)
Definition code_unit := N.
Definition jsstring := list code_unit.

Definition jsstring_eqb (a b : jsstring) : bool :=
  if list_eq_dec N.eq_dec a b then true else false.

(** The literals of the source file are UTF-8 text; [utf16] gives the
    code units the engine holds for such a literal. *)
Fixpoint utf8_decode (bs : list N) : jsstring :=
  match bs with
  | [] => []
  | b0 :: r0 =>
    if (b0 <? 0x80)%N then b0 :: utf8_decode r0
    else
      match r0 with
      | [] => [0xFFFD%N]
      | b1 :: r1 =>
        if (b0 <? 0xE0)%N then
          N.lor (N.shiftl (N.land b0 0x1F) 6) (N.land b1 0x3F)
            :: utf8_decode r1
        else
          match r1 with
          | [] => [0xFFFD%N]
          | b2 :: r2 =>
            if (b0 <? 0xF0)%N then
              N.lor (N.shiftl (N.land b0 0x0F) 12)
                (N.lor (N.shiftl (N.land b1 0x3F) 6) (N.land b2 0x3F))
                :: utf8_decode r2
            else
              match r2 with
              | [] => [0xFFFD%N]
              | b3 :: r3 =>
                let cp :=
                  N.lor (N.shiftl (N.land b0 0x07) 18)
                    (N.lor (N.shiftl (N.land b1 0x3F) 12)
                       (N.lor (N.shiftl (N.land b2 0x3F) 6)
                          (N.land b3 0x3F))) in
                let v := (cp - 0x10000)%N in
                (0xD800 + N.shiftr v 10)%N
                  :: (0xDC00 + N.land v 0x3FF)%N
                  :: utf8_decode r3
              end
          end
      end
  end.

Definition utf16 (s : string) : jsstring :=
  utf8_decode (map N_of_ascii (list_ascii_of_string s)).

Arguments utf16 : simpl never.

Definition LF : jsstring := [10%N].
Definition DQUOTE : jsstring := [34%N].

(** [String.prototype.trim] strips WhiteSpace and LineTerminator code
    points from both ends (ECMA-262, TrimString).  All of them lie in
    the Basic Multilingual Plane, so each is one code unit. *)
Definition is_line_terminator (c : code_unit) : bool :=
  existsb (N.eqb c) [0x000A; 0x000D; 0x2028; 0x2029]%N.

Definition is_white_space (c : code_unit) : bool :=
  existsb (N.eqb c)
    [0x0009; 0x000B; 0x000C; 0x0020; 0x00A0; 0xFEFF;
     0x1680; 0x202F; 0x205F; 0x3000]%N
  || ((0x2000 <=? c)%N && (c <=? 0x200A)%N).

Definition is_trimmed (c : code_unit) : bool :=
  is_white_space c || is_line_terminator c.

Fixpoint trimStart (s : jsstring) : jsstring :=
  match s with
  | [] => []
  | c :: r => if is_trimmed c then trimStart r else s
  end.

Definition trimEnd (s : jsstring) : jsstring := rev (trimStart (rev s)).

Definition trim (s : jsstring) : jsstring := trimEnd (trimStart s).

Arguments trim : simpl never.

(** ** Values *)

Inductive jsval : Type :=
  | JUndefined
  | JNull
  | JBool (b : bool)
  | JNum (x : spec_float)
  | JStr (s : jsstring)
  | JArr (items : list jsval)
  | JObj (props : list (jsstring * jsval)).

(** An object as the ordered list of its own properties. *)
Definition jsobject := list (jsstring * jsval).

(** The answers of the [typeof] operator on these values. *)
Inductive jstype : Type :=
  | TyUndefined | TyObject | TyBoolean | TyNumber | TyString.

Definition typeof (v : jsval) : jstype :=
  match v with
  | JUndefined => TyUndefined
  | JNull => TyObject
  | JBool _ => TyBoolean
  | JNum _ => TyNumber
  | JStr _ => TyString
  | JArr _ => TyObject
  | JObj _ => TyObject
  end.

Definition jstype_eqb (a b : jstype) : bool :=
  match a, b with
  | TyUndefined, TyUndefined | TyObject, TyObject | TyBoolean, TyBoolean
  | TyNumber, TyNumber | TyString, TyString => true
  | _, _ => false
  end.

(** ToBoolean: [undefined], [null], [false], [+0], [-0], [NaN] and the
    empty string are falsy, everything else is truthy. *)
Definition truthy (v : jsval) : bool :=
  match v with
  | JUndefined | JNull => false
  | JBool b => b
  | JNum (S754_zero _) | JNum S754_nan => false
  | JNum _ => true
  | JStr s => negb (jsstring_eqb s [])
  | JArr _ | JObj _ => true
  end.

(** [a || b] and the default of a destructuring pattern. *)
Definition js_or (a b : jsval) : jsval := if truthy a then a else b.

Definition default_to (d v : jsval) : jsval :=
  match v with
  | JUndefined => d
  | _ => v
  end.

(** [o.k]: the value of the own property [k] (its first entry in the
    list), [undefined] without one.  None of the property names read
    below is inherited from [Object.prototype]. *)
Fixpoint get (o : jsobject) (k : jsstring) : jsval :=
  match o with
  | [] => JUndefined
  | (k', v) :: r => if jsstring_eqb k' k then v else get r k
  end.

Definition push {A : Type} (arr : list A) (x : A) : list A := arr ++ [x].

(** ** The validator *)

Definition ALLOWED_TYPES : list jsstring :=
  [ utf16 "landing";
    utf16 "website";
    utf16 "ecommerce";
    utf16 "info-app";
    utf16 "booking-app";
    utf16 "custom" ].

(** [Set.prototype.has] on a set whose members are all strings: only a
    string can be SameValueZero to one of them. *)
Definition set_has (members : list jsstring) (v : jsval) : bool :=
  match v with
  | JStr s => existsb (jsstring_eqb s) members
  | _ => false
  end.

Definition ERR_FIRST_NAME : jsstring := utf16 "الاسم الأول مطلوب.".
Definition ERR_LAST_NAME : jsstring := utf16 "الاسم الأخير مطلوب.".
Definition ERR_EMAIL : jsstring := utf16 "البريد الإلكتروني مطلوب.".
Definition ERR_PHONE : jsstring := utf16 "رقم الهاتف مطلوب.".
Definition ERR_MESSAGE : jsstring := utf16 "نص الرسالة مطلوب.".
Definition ERR_PROJECT_TYPE : jsstring := utf16 "قيمة نوع المشروع غير صالحة.".

Definition K_firstName : jsstring := utf16 "firstName".
Definition K_lastName : jsstring := utf16 "lastName".
Definition K_email : jsstring := utf16 "email".
Definition K_phone : jsstring := utf16 "phone".
Definition K_projectType : jsstring := utf16 "projectType".
Definition K_message : jsstring := utf16 "message".
Definition K_company : jsstring := utf16 "company".

(** [(v) => typeof v === "string" && v.trim().length > 0] *)
Definition reqStr (v : jsval) : bool :=
  jstype_eqb (typeof v) TyString
  && match v with
     | JStr s => Nat.ltb 0 (List.length (trim s))
     | _ => false
     end.

Definition validatePayload (body : jsobject) : list jsstring :=
  let errors := [] in
  let errors :=
    if negb (reqStr (get body K_firstName))
    then push errors ERR_FIRST_NAME else errors in
  let errors :=
    if negb (reqStr (get body K_lastName))
    then push errors ERR_LAST_NAME else errors in
  let errors :=
    if negb (reqStr (get body K_email))
    then push errors ERR_EMAIL else errors in
  let errors :=
    if negb (reqStr (get body K_phone))
    then push errors ERR_PHONE else errors in
  let errors :=
    if negb (reqStr (get body K_message))
    then push errors ERR_MESSAGE else errors in
  let errors :=
    if truthy (get body K_projectType)
       && negb (set_has ALLOWED_TYPES (get body K_projectType))
    then push errors ERR_PROJECT_TYPE else errors in
  errors.

(** ** Effects: exceptions, the trace and the outside world *)

(** A thrown value is any ECMAScript value. *)
Inductive result (A : Type) : Type :=
  | Ok (a : A)
  | Throw (err : jsval).

Arguments Ok {A} a.
Arguments Throw {A} err.

(** [nodemailer.createTransport({ host, port, secure, auth })] *)
Record smtp_options : Type := {
  opt_host : jsval;
  opt_port : spec_float;
  opt_secure : bool;
  opt_auth : jsval
}.

(** The two transports [getTransporter] can return: the SMTP transport
    built from the options, and the stream transport created with
    [{ streamTransport: true, newline: "unix", buffer: true }]. *)
Inductive transport : Type :=
  | SmtpTransport (o : smtp_options)
  | StreamTransport.

(** The argument of [transporter.sendMail]. *)
Record mail : Type := {
  mail_from : jsval;
  mail_to : jsval;
  mail_replyTo : jsval;
  mail_subject : jsstring;
  mail_text : jsstring;
  mail_html : jsstring
}.

(** What [sendMail] resolves with, as far as the handler reads it:
    [info.message] (a buffer, given by its content) and
    [info.messageId]. *)
Record send_info : Type := {
  info_message : option jsstring;
  info_messageId : option jsstring
}.

(** The lines written to the console, by the call that writes them. *)
Inductive console_line : Type :=
  | LogSmtpReady (host : jsval) (port : spec_float) (user : jsval)
  | ErrVerifyFailed (detail : jsval)
  | WarnFallback
  | LogMailConsole (content : jsstring)
  | LogMailQueued (id : jsstring)
  | ErrDispatch (err : jsval).

Inductive event : Type :=
  | EvCreateTransport (o : smtp_options)
  | EvVerify (o : smtp_options)
  | EvCreateStreamTransport
  | EvSendMail (t : transport) (m : mail)
  | EvConsole (l : console_line).

Definition trace := list event.

(** What the mail library and the network answer during one request.
    [None] is a normal return, [Some err] the value thrown (or the
    rejection of the promise). *)
Record world : Type := {
  smtp_create : smtp_options -> option jsval;
  smtp_verify : smtp_options -> option jsval;
  smtp_send : smtp_options -> mail -> result send_info;
  stream_render : mail -> jsstring;
  stream_message_id : mail -> jsstring
}.

(** [process.env]: a variable is a string or is not defined. *)
Record process_env : Type := {
  SMTP_HOST : option jsstring;
  SMTP_PORT : option jsstring;
  SMTP_USER : option jsstring;
  SMTP_PASS : option jsstring;
  MAIL_FROM : option jsstring;
  MAIL_TO : option jsstring
}.

Definition env_get (x : option jsstring) : jsval :=
  match x with
  | Some s => JStr s
  | None => JUndefined
  end.

(** Computations that write to the trace and may throw. *)
Definition M (A : Type) : Type := trace -> result A * trace.

Definition ret {A : Type} (a : A) : M A := fun t => (Ok a, t).

Definition bind {A B : Type} (m : M A) (k : A -> M B) : M B :=
  fun t =>
    match m t with
    | (Ok a, t') => k a t'
    | (Throw err, t') => (Throw err, t')
    end.

Definition throw {A : Type} (err : jsval) : M A := fun t => (Throw err, t).

Definition try_catch {A : Type} (m : M A) (handler : jsval -> M A) : M A :=
  fun t =>
    match m t with
    | (Ok a, t') => (Ok a, t')
    | (Throw err, t') => handler err t'
    end.

Definition emit (e : event) : M unit := fun t => (Ok tt, t ++ [e]).

Definition lift {A : Type} (r : result A) : M A :=
  match r with
  | Ok a => ret a
  | Throw err => throw err
  end.

Notation "x <- m ;; k" := (bind m (fun x => k))
  (at level 61, m at next level, right associativity).
Notation "m ;; k" := (bind m (fun _ => k))
  (at level 61, right associativity).

Definition console (l : console_line) : M unit := emit (EvConsole l).

(** The HTTP response: [res.status(n).json(value)]. *)
Record response : Type := {
  res_status : N;
  res_json : jsval
}.

(** ** Transport resolution and the route handler *)

(** [.] of a regular expression without the [s] flag. *)
Definition re_dot (c : code_unit) : bool := negb (is_line_terminator c).

(** The lookahead [(?=.{3})] at the rest of the string. *)
Definition followed_by_three (r : jsstring) : bool :=
  match r with
  | c1 :: c2 :: c3 :: _ => re_dot c1 && re_dot c2 && re_dot c3
  | _ => false
  end.

(** [s.replace(/.(?=.{3})/g, "*")] *)
Fixpoint mask (s : jsstring) : jsstring :=
  match s with
  | [] => []
  | c :: r => (if re_dot c && followed_by_three r then 42%N else c) :: mask r
  end.

(** [err?.message] *)
Definition opt_message (err : jsval) : jsval :=
  match err with
  | JObj props => get props (utf16 "message")
  | _ => JUndefined
  end.

(** [a && b] *)
Definition js_and (a b : jsval) : jsval := if truthy a then b else a.

Definition binary64 (m : positive) : spec_float :=
  binary_normalize 53%Z 1024%Z (Zpos m) 0%Z false.

Definition K_ok : jsstring := utf16 "ok".
Definition K_errors : jsstring := utf16 "errors".
Definition K_user : jsstring := utf16 "user".
Definition K_pass : jsstring := utf16 "pass".

Definition MSG_RECEIVED : jsstring := utf16 "تم الاستلام.".
Definition MSG_SUCCESS : jsstring := utf16 "تم استلام رسالتك بنجاح".
Definition MSG_FAILURE : jsstring := utf16 "خطأ في الإرسال".
Definition SUBJECT : jsstring := utf16 "رسالة جديدة من نموذج التواصل".
Definition NO_REPLY : jsstring := utf16 "no-reply@example.com".
Definition NO_AUTH : jsstring := utf16 "(no-auth)".
Definition DASH : jsstring := utf16 "-".

(** The pieces of a template literal: literal text and substitutions. *)
Inductive template_part : Type :=
  | Lit (s : jsstring)
  | Sub (v : jsval).

(** Modelled from the spec: the stream transport of [nodemailer], which
    is not part of the sources.  It is the discard transport of section
    4.2: it buffers the composed message in memory instead of
    transmitting it, so its [sendMail] always resolves, with that
    buffer as [info.message].  The SMTP transport answers what the
    world says. *)
Definition send_outcome (w : world) (t : transport) (m : mail)
    : result send_info :=
  match t with
  | SmtpTransport o => smtp_send w o m
  | StreamTransport =>
    Ok {| info_message := Some (stream_render w m);
          info_messageId := Some (stream_message_id w m) |}
  end.

Section Engine.

(** Two operations of the ECMAScript engine are taken as they are:
    ToString on numbers, arrays and objects (it can throw a
    TypeError), and the conversion of a string to a number. *)
Variable engine_ToString : jsval -> result jsstring.
Variable StringToNumber : jsstring -> spec_float.

Definition ToString (v : jsval) : result jsstring :=
  match v with
  | JUndefined => Ok (utf16 "undefined")
  | JNull => Ok (utf16 "null")
  | JBool true => Ok (utf16 "true")
  | JBool false => Ok (utf16 "false")
  | JStr s => Ok s
  | JNum _ | JArr _ | JObj _ => engine_ToString v
  end.

(** A template literal converts its substitutions from left to
    right and stops at the first one that throws. *)
Fixpoint template_literal (parts : list template_part) : result jsstring :=
  match parts with
  | [] => Ok []
  | Lit s :: r =>
    match template_literal r with
    | Ok rest => Ok (s ++ rest)
    | Throw err => Throw err
    end
  | Sub v :: r =>
    match ToString v with
    | Ok s =>
      match template_literal r with
      | Ok rest => Ok (s ++ rest)
      | Throw err => Throw err
      end
    | Throw err => Throw err
    end
  end.

(** [Number(process.env.SMTP_PORT || 587)] *)
Definition smtp_port (env : process_env) : spec_float :=
  match SMTP_PORT env with
  | Some s => if truthy (JStr s) then StringToNumber s else binary64 587
  | None => binary64 587
  end.

(** [process.env.SMTP_USER || ""] *)
Definition smtp_user_or_empty (env : process_env) : jsstring :=
  match SMTP_USER env with
  | Some s => if truthy (JStr s) then s else []
  | None => []
  end.

Definition createTransport (w : world) (o : smtp_options) : M transport :=
  emit (EvCreateTransport o) ;;
  match smtp_create w o with
  | None => ret (SmtpTransport o)
  | Some err => throw err
  end.

(** [nodemailer.createTransport({ streamTransport: true, ... })]: the
    discard transport needs nothing from outside and is always
    created. *)
Definition createStreamTransport : M transport :=
  emit EvCreateStreamTransport ;;
  ret StreamTransport.

(** [transporter.verify()] is called on the SMTP transport only. *)
Definition verify (w : world) (o : smtp_options) : M unit :=
  emit (EvVerify o) ;;
  match smtp_verify w o with
  | None => ret tt
  | Some err => throw err
  end.

Definition sendMail (w : world) (t : transport) (m : mail) : M send_info :=
  emit (EvSendMail t m) ;;
  lift (send_outcome w t m).

(** The options [getTransporter] builds from the environment. *)
Definition smtp_options_of (env : process_env) : smtp_options :=
  let host := env_get (SMTP_HOST env) in
  let port := smtp_port env in
  let secure := SFeqb port (binary64 465) in
  {| opt_host := host;
     opt_port := port;
     opt_secure := secure;
     opt_auth :=
       if truthy (js_and (env_get (SMTP_USER env)) (env_get (SMTP_PASS env)))
       then JObj [(K_user, env_get (SMTP_USER env));
                  (K_pass, env_get (SMTP_PASS env))]
       else JUndefined |}.

Definition getTransporter (w : world) (env : process_env) : M transport :=
  let o := smtp_options_of env in
  transporter <- createTransport w o ;;
  try_catch
    (verify w o ;;
     let maskedUser := mask (smtp_user_or_empty env) in
     console (LogSmtpReady (opt_host o) (opt_port o)
                (js_or (JStr maskedUser) (JStr NO_AUTH))) ;;
     ret transporter)
    (fun err =>
       console (ErrVerifyFailed (js_or (opt_message err) err)) ;;
       console WarnFallback ;;
       createStreamTransport).

(** The two bodies of the mail, as the template literals of the
    handler write them. *)
Definition html_template
    (firstName lastName email phone projectType message : jsval)
    : list template_part :=
  [ Lit (LF ++ utf16 "      <div style=" ++ DQUOTE
         ++ utf16 "font-family:system-ui,-apple-system,Segoe UI,Roboto,Ubuntu,Cairo,sans-serif;line-height:1.6"
         ++ DQUOTE ++ utf16 ">" ++ LF
         ++ utf16 "        <h2>رسالة جديدة</h2>" ++ LF
         ++ utf16 "        <ul>" ++ LF
         ++ utf16 "          <li><b>الاسم:</b> ");
    Sub firstName; Lit (utf16 " "); Sub lastName;
    Lit (utf16 "</li>" ++ LF ++ utf16 "          <li><b>البريد:</b> ");
    Sub email;
    Lit (utf16 "</li>" ++ LF ++ utf16 "          <li><b>الهاتف:</b> ");
    Sub phone;
    Lit (utf16 "</li>" ++ LF ++ utf16 "          <li><b>نوع المشروع:</b> ");
    Sub (js_or projectType (JStr DASH));
    Lit (utf16 "</li>" ++ LF
         ++ utf16 "        </ul>" ++ LF
         ++ utf16 "        <pre style=" ++ DQUOTE
         ++ utf16 "white-space:pre-wrap;background:#f7f7f7;padding:12px;border-radius:8px"
         ++ DQUOTE ++ utf16 ">");
    Sub message;
    Lit (utf16 "</pre>" ++ LF ++ utf16 "      </div>" ++ LF ++ utf16 "    ") ].

Definition text_template
    (firstName lastName email phone projectType message : jsval)
    : list template_part :=
  [ Lit (utf16 "الاسم: "); Sub firstName; Lit (utf16 " "); Sub lastName;
    Lit (LF ++ utf16 "البريد: "); Sub email;
    Lit (LF ++ utf16 "الهاتف: "); Sub phone;
    Lit (LF ++ utf16 "نوع المشروع: "); Sub (js_or projectType (JStr DASH));
    Lit (LF ++ utf16 "---" ++ LF); Sub message ].

(** [errors[0]] *)
Definition first_error (errors : list jsstring) : jsval :=
  match errors with
  | e :: _ => JStr e
  | [] => JUndefined
  end.

(** The honeypot test:
    [typeof req.body.company === "string" && req.body.company.trim() !== ""] *)
Definition honeypot (company : jsval) : bool :=
  jstype_eqb (typeof company) TyString
  && match company with
     | JStr s => negb (jsstring_eqb (trim s) [])
     | _ => false
     end.

(** The object literal
    [{ firstName, lastName, email, phone, projectType, message }]. *)
Definition payload
    (firstName lastName email phone projectType message : jsval)
    : jsobject :=
  [(K_firstName, firstName); (K_lastName, lastName);
   (K_email, email); (K_phone, phone);
   (K_projectType, projectType); (K_message, message)].

Definition fromAddr (env : process_env) : jsval :=
  js_or (js_or (env_get (MAIL_FROM env)) (env_get (SMTP_USER env)))
        (JStr NO_REPLY).

Definition toAddr (env : process_env) (email : jsval) : jsval :=
  js_or (js_or (env_get (MAIL_TO env)) (env_get (SMTP_USER env))) email.

Definition response_ok (message : jsstring) : response :=
  {| res_status := 200;
     res_json := JObj [(K_ok, JBool true); (K_message, JStr message)] |}.

Definition response_invalid (errors : list jsstring) : response :=
  {| res_status := 400;
     res_json := JObj [(K_ok, JBool false);
                       (K_message, first_error errors);
                       (K_errors, JArr (map JStr errors))] |}.

Definition response_failure : response :=
  {| res_status := 500;
     res_json := JObj [(K_ok, JBool false);
                       (K_message, JStr MSG_FAILURE)] |}.

(** The body of the [try] statement of the handler. *)
Definition dispatch (w : world) (env : process_env)
    (firstName lastName email phone projectType message : jsval)
    : M response :=
  transporter <- getTransporter w env ;;
  let subject := SUBJECT in
  html <- lift (template_literal
                  (html_template firstName lastName email phone
                                 projectType message)) ;;
  text <- lift (template_literal
                  (text_template firstName lastName email phone
                                 projectType message)) ;;
  info <- sendMail w transporter
            {| mail_from := fromAddr env;
               mail_to := toAddr env email;
               mail_replyTo := email;
               mail_subject := subject;
               mail_text := text;
               mail_html := html |} ;;
  match info_message info with
  | Some content => console (LogMailConsole content)
  | None =>
    match info_messageId info with
    | Some id =>
      if truthy (JStr id) then console (LogMailQueued id) else ret tt
    | None => ret tt
    end
  end ;;
  ret (response_ok MSG_SUCCESS).

(** The handler of [POST /api/contact].  [req_body] is [req.body] as
    the body parsers leave it for a submission, an object; on an object
    [req.body || {}] is [req.body].  A request whose body was not
    parsed at all is not a submission and is outside this model. *)
Definition contact_handler (w : world) (env : process_env)
    (req_body : jsobject) : M response :=
  if honeypot (get req_body K_company) then
    ret (response_ok MSG_RECEIVED)
  else
    let firstName := get req_body K_firstName in
    let lastName := get req_body K_lastName in
    let email := get req_body K_email in
    let phone := get req_body K_phone in
    let projectType := default_to (JStr []) (get req_body K_projectType) in
    let message := get req_body K_message in
    let errors :=
      validatePayload
        (payload firstName lastName email phone projectType message) in
    if negb (Nat.eqb (List.length errors) 0) then
      ret (response_invalid errors)
    else
      try_catch
        (dispatch w env firstName lastName email phone projectType message)
        (fun err =>
           console (ErrDispatch err) ;;
           ret response_failure).

End Engine.

(** The record the handler hands to the validator. *)
Definition payload_of (req_body : jsobject) : jsobject :=
  payload (get req_body K_firstName) (get req_body K_lastName)
          (get req_body K_email) (get req_body K_phone)
          (default_to (JStr []) (get req_body K_projectType))
          (get req_body K_message).

(** The lines of a text, separated by line feeds. *)
Fixpoint split_lines (s : jsstring) : list jsstring :=
  match s with
  | [] => [[]]
  | c :: r =>
    if N.eqb c 10 then [] :: split_lines r
    else
      match split_lines r with
      | l :: ls => (c :: l) :: ls
      | [] => [[c]]
      end
  end.

(** ** The rules of the validator, as the specification lists them *)

(** A rule: the test that finds it violated, and its message. *)
Definition validation_rules : list ((jsobject -> bool) * jsstring) :=
  [ (fun body => negb (reqStr (get body K_firstName)), ERR_FIRST_NAME);
    (fun body => negb (reqStr (get body K_lastName)), ERR_LAST_NAME);
    (fun body => negb (reqStr (get body K_email)), ERR_EMAIL);
    (fun body => negb (reqStr (get body K_phone)), ERR_PHONE);
    (fun body => negb (reqStr (get body K_message)), ERR_MESSAGE);
    (fun body => truthy (get body K_projectType)
                 && negb (set_has ALLOWED_TYPES (get body K_projectType)),
     ERR_PROJECT_TYPE) ].

(** Every violated rule contributes its message, in the order of the
    rules. *)
Definition applicable_errors (body : jsobject) : list jsstring :=
  map snd (filter (fun rule => fst rule body) validation_rules).

(** The required fields with their messages. *)
Definition required_fields : list (jsstring * jsstring) :=
  [ (K_firstName, ERR_FIRST_NAME); (K_lastName, ERR_LAST_NAME);
    (K_email, ERR_EMAIL); (K_phone, ERR_PHONE);
    (K_message, ERR_MESSAGE) ].

(** A field is missing, or a string that is blank after trimming. *)
Definition missing_or_blank (v : jsval) : Prop :=
  v = JUndefined \/ exists s, v = JStr s /\ trim s = [].

(** A configuration variable is set when it is defined and not empty. *)
Definition is_set (x : option jsstring) : bool :=
  match x with
  | Some s => negb (jsstring_eqb s [])
  | None => false
  end.

(** Sender and recipient as the configuration section words them. *)
Definition sender_of (env : process_env) : jsval :=
  if is_set (MAIL_FROM env) then env_get (MAIL_FROM env)
  else if is_set (SMTP_USER env) then env_get (SMTP_USER env)
  else JStr NO_REPLY.

Definition recipient_of (env : process_env) (email : jsval) : jsval :=
  if is_set (MAIL_TO env) then env_get (MAIL_TO env)
  else if is_set (SMTP_USER env) then env_get (SMTP_USER env)
  else email.

(** The forms a response of the handler can take. *)
Definition response_form (req_body : jsobject) (r : response) : Prop :=
  r = response_ok MSG_RECEIVED
  \/ r = response_ok MSG_SUCCESS
  \/ r = response_invalid (validatePayload (payload_of req_body))
  \/ r = response_failure.

(** The values of the two template literals when every substitution
    is a string; [p] is the string [projectType || "-"]. *)
Definition text_body (fn ln em ph p msg : jsstring) : jsstring :=
  utf16 "الاسم: " ++ fn ++ utf16 " " ++ ln ++ LF
  ++ utf16 "البريد: " ++ em ++ LF
  ++ utf16 "الهاتف: " ++ ph ++ LF
  ++ utf16 "نوع المشروع: " ++ p ++ LF
  ++ utf16 "---" ++ LF
  ++ msg.

Definition html_body (fn ln em ph p msg : jsstring) : jsstring :=
  LF ++ utf16 "      <div style=" ++ DQUOTE
  ++ utf16 "font-family:system-ui,-apple-system,Segoe UI,Roboto,Ubuntu,Cairo,sans-serif;line-height:1.6"
  ++ DQUOTE ++ utf16 ">" ++ LF
  ++ utf16 "        <h2>رسالة جديدة</h2>" ++ LF
  ++ utf16 "        <ul>" ++ LF
  ++ utf16 "          <li><b>الاسم:</b> " ++ fn ++ utf16 " " ++ ln
  ++ utf16 "</li>" ++ LF
  ++ utf16 "          <li><b>البريد:</b> " ++ em
  ++ utf16 "</li>" ++ LF
  ++ utf16 "          <li><b>الهاتف:</b> " ++ ph
  ++ utf16 "</li>" ++ LF
  ++ utf16 "          <li><b>نوع المشروع:</b> " ++ p
  ++ utf16 "</li>" ++ LF
  ++ utf16 "        </ul>" ++ LF
  ++ utf16 "        <pre style=" ++ DQUOTE
  ++ utf16 "white-space:pre-wrap;background:#f7f7f7;padding:12px;border-radius:8px"
  ++ DQUOTE ++ utf16 ">" ++ msg
  ++ utf16 "</pre>" ++ LF ++ utf16 "      </div>" ++ LF ++ utf16 "    ".

(** The mail of a valid submission. *)
Definition contact_mail (env : process_env)
    (fn ln em ph p msg : jsstring) : mail :=
  {| mail_from := fromAddr env;
     mail_to := toAddr env (JStr em);
     mail_replyTo := JStr em;
     mail_subject := SUBJECT;
     mail_text := text_body fn ln em ph p msg;
     mail_html := html_body fn ln em ph p msg |}.

(** The console line that follows a successful send. *)
Definition delivery_log (info : send_info) : list event :=
  match info_message info with
  | Some content => [EvConsole (LogMailConsole content)]
  | None =>
    match info_messageId info with
    | Some id =>
      if truthy (JStr id) then [EvConsole (LogMailQueued id)] else []
    | None => []
    end
  end.

(** The events that are a call of [sendMail]. *)
Definition is_send (e : event) : bool :=
  match e with
  | EvSendMail _ _ => true
  | _ => false
  end.

(** The trace of a transport resolution whose verify step succeeds,
    and of one whose verify step fails with [err]. *)
Definition trace_verified (env : process_env) (o : smtp_options) : trace :=
  [ EvCreateTransport o; EvVerify o;
    EvConsole (LogSmtpReady (opt_host o) (opt_port o)
                 (js_or (JStr (mask (smtp_user_or_empty env)))
                        (JStr NO_AUTH))) ].

Definition trace_fallback (o : smtp_options) (err : jsval) : trace :=
  [ EvCreateTransport o; EvVerify o;
    EvConsole (ErrVerifyFailed (js_or (opt_message err) err));
    EvConsole WarnFallback; EvCreateStreamTransport ].

(** ** The origins of the CORS configuration *)

(** [s.split(c)] for a separator of one code unit. *)
Fixpoint split_at (c : code_unit) (s : jsstring) : list jsstring :=
  match s with
  | [] => [[]]
  | x :: r =>
    if N.eqb x c then [] :: split_at c r
    else
      match split_at c r with
      | p :: ps => (x :: p) :: ps
      | [] => [[x]]
      end
  end.

(** [parts.join(sep)] on an array of strings. *)
Fixpoint join (sep : jsstring) (parts : list jsstring) : jsstring :=
  match parts with
  | [] => []
  | [p] => p
  | p :: rest => p ++ sep ++ join sep rest
  end.

Definition COMMA : code_unit := 44%N.

(** [process.env.X || ""] *)
Definition or_empty (x : option jsstring) : jsstring :=
  match x with
  | Some s => if truthy (JStr s) then s else []
  | None => []
  end.

(** [(process.env.CORS_ORIGIN || "").split(",").map(s => s.trim())
    .filter(Boolean)], as a function of the variable. *)
Definition allowedOrigins (CORS_ORIGIN : option jsstring) : list jsstring :=
  filter (fun s => truthy (JStr s))
    (map trim (split_at COMMA (or_empty CORS_ORIGIN))).

(** The [origin] option handed to [cors]:
    [allowedOrigins.length ? allowedOrigins : "*"]. *)
Definition cors_origin (origins : list jsstring) : jsval :=
  if negb (Nat.eqb (List.length origins) 0)
  then JArr (map JStr origins)
  else JStr (utf16 "*").

(** The arguments of the [console.log] call about CORS in the callback
    of [app.listen]. *)
Definition cors_startup_log (origins : list jsstring) : list jsval :=
  if negb (Nat.eqb (List.length origins) 0)
  then [JStr (utf16 "🔐 CORS origins:"); JStr (join (utf16 ", ") origins)]
  else [JStr (utf16 "🌍 CORS: * (أي مصدر)")].

(** ** Notions used to state how the handler behaves *)

(** The events that are a call of [nodemailer.createTransport] for the
    SMTP transport. *)
Definition is_create (e : event) : bool :=
  match e with
  | EvCreateTransport _ => true
  | _ => false
  end.

(** A member of the JSON body of a response. *)
Definition json_field (r : response) (k : jsstring) : jsval :=
  match res_json r with
  | JObj props => get props k
  | _ => JUndefined
  end.

(** A string that has a code unit [trim] keeps. *)
Definition has_visible (s : jsstring) : bool :=
  existsb (fun c => negb (is_trimmed c)) s.

(** A string with no white space at either end. *)
Definition trimmed_ends (s : jsstring) : bool :=
  match s with
  | [] => true
  | c :: _ => negb (is_trimmed c)
  end
  && match rev s with
     | [] => true
     | c :: _ => negb (is_trimmed c)
     end.

(** ** The validator with its objects in a store *)

(** [validatePayload] works on two objects: the module-level Set
    [ALLOWED_TYPES], which every call reads, and the array [errors],
    which it creates, fills with [push] and returns.  Here both live in
    a store that the calls pass on, so that a call could see what an
    earlier one left behind. *)
Record store : Type := {
  allowed_members : list jsstring;
  arrays : list (list jsstring)
}.

(** An array is known by its address in the store. *)
Definition array_ref := nat.

Definition St (A : Type) : Type := store -> A * store.

Definition st_ret {A : Type} (a : A) : St A := fun s => (a, s).

Definition st_bind {A B : Type} (m : St A) (k : A -> St B) : St B :=
  fun s => let (a, s') := m s in k a s'.

(** [[]]: a new array, at an address not in use. *)
Definition new_array : St array_ref :=
  fun s =>
    (List.length (arrays s),
     {| allowed_members := allowed_members s;
        arrays := arrays s ++ [[]] |}).

Fixpoint push_at (r : array_ref) (x : jsstring)
    (heap : list (list jsstring)) : list (list jsstring) :=
  match heap, r with
  | [], _ => []
  | a :: rest, O => push a x :: rest
  | a :: rest, S r' => a :: push_at r' x rest
  end.

(** [errors.push(x)] on the array at [r]. *)
Definition array_push (r : array_ref) (x : jsstring) : St unit :=
  fun s =>
    (tt,
     {| allowed_members := allowed_members s;
        arrays := push_at r x (arrays s) |}).

(** [ALLOWED_TYPES.has(v)] *)
Definition allowed_types_has (v : jsval) : St bool :=
  fun s => (set_has (allowed_members s) v, s).

(** The content of the array at [r]. *)
Definition array_at (s : store) (r : array_ref) : option (list jsstring) :=
  nth_error (arrays s) r.

(** The store when the module has been loaded. *)
Definition initial_store : store :=
  {| allowed_members := ALLOWED_TYPES; arrays := [] |}.

(** [if (c) errors.push(x);] *)
Definition push_if (c : bool) (r : array_ref) (x : jsstring) : St unit :=
  if c then array_push r x else st_ret tt.

Definition validatePayload_in_store (body : jsobject) : St array_ref :=
  st_bind new_array (fun errors =>
  st_bind (push_if (negb (reqStr (get body K_firstName)))
             errors ERR_FIRST_NAME) (fun _ =>
  st_bind (push_if (negb (reqStr (get body K_lastName)))
             errors ERR_LAST_NAME) (fun _ =>
  st_bind (push_if (negb (reqStr (get body K_email)))
             errors ERR_EMAIL) (fun _ =>
  st_bind (push_if (negb (reqStr (get body K_phone)))
             errors ERR_PHONE) (fun _ =>
  st_bind (push_if (negb (reqStr (get body K_message)))
             errors ERR_MESSAGE) (fun _ =>
  st_bind (if truthy (get body K_projectType)
           then st_bind (allowed_types_has (get body K_projectType))
                  (fun has => st_ret (negb has))
           else st_ret false) (fun invalid =>
  st_bind (push_if invalid errors ERR_PROJECT_TYPE) (fun _ =>
  st_ret errors)))))))).

(** The list the validator builds when the Set holds [members]. *)
Definition errors_with (members : list jsstring) (body : jsobject)
    : list jsstring :=
  (if reqStr (get body K_firstName) then [] else [ERR_FIRST_NAME])
  ++ (if reqStr (get body K_lastName) then [] else [ERR_LAST_NAME])
  ++ (if reqStr (get body K_email) then [] else [ERR_EMAIL])
  ++ (if reqStr (get body K_phone) then [] else [ERR_PHONE])
  ++ (if reqStr (get body K_message) then [] else [ERR_MESSAGE])
  ++ (if truthy (get body K_projectType)
         && negb (set_has members (get body K_projectType))
      then [ERR_PROJECT_TYPE] else []).

(** ** The handler on any [req.body] *)

(** The TypeError of the engine for [base.key] on [undefined] or
    [null], given by its message. *)
Definition type_error_reading (base : jsval) (key : jsstring) : jsval :=
  JObj [(K_message,
         JStr (utf16 "Cannot read properties of "
               ++ (match base with
                   | JNull => utf16 "null"
                   | _ => utf16 "undefined"
                   end)
               ++ utf16 " (reading '" ++ key ++ utf16 "')"))].

(** The handler as it is written, on whatever [req.body] is.  Line 95
    reads [req.body.company] before the [req.body || {}] of line 99
    and outside the [try]: on [undefined] and [null] that read throws.
    An array or a primitive has none of the properties the handler
    reads, so it is handled as the empty object is. *)
Definition contact_route (engine_ToString : jsval -> result jsstring)
    (StringToNumber : jsstring -> spec_float)
    (w : world) (env : process_env) (req_body : jsval) : M response :=
  match req_body with
  | JUndefined | JNull => throw (type_error_reading req_body K_company)
  | JObj props => contact_handler engine_ToString StringToNumber w env props
  | JBool _ | JNum _ | JStr _ | JArr _ =>
    contact_handler engine_ToString StringToNumber w env []
  end.


(** ** Sample requests, environments and worlds *)

Definition str (s : string) : jsval := JStr (utf16 s).

Definition sara : jsobject :=
  [ (K_firstName, str "Sara"); (K_lastName, str "Ali");
    (K_email, str "sara@example.com"); (K_phone, str "0500000000");
    (K_projectType, str "landing"); (K_message, str "Hello") ].

Definition sara_no_type : jsobject :=
  [ (K_firstName, str "Sara"); (K_lastName, str "Ali");
    (K_email, str "sara@example.com"); (K_phone, str "0500000000");
    (K_message, str "Hello") ].

Definition sara_text : jsstring :=
  utf16 "الاسم: Sara Ali" ++ LF
  ++ utf16 "البريد: sara@example.com" ++ LF
  ++ utf16 "الهاتف: 0500000000" ++ LF
  ++ utf16 "نوع المشروع: landing" ++ LF
  ++ utf16 "---" ++ LF
  ++ utf16 "Hello".

(** A bot fills the honeypot and nothing else. *)
Definition bot_submission : jsobject := [ (K_company, str "Acme") ].

(** A company field of one space. *)
Definition blank_company : jsobject := [ (K_company, str " ") ].

(** Sara's submission with a company field of one space. *)
Definition sara_blank_company : jsobject := (K_company, str " ") :: sara.

(** Sara's submission with a project type outside the enumeration. *)
Definition sara_blog : jsobject :=
  [ (K_firstName, str "Sara"); (K_lastName, str "Ali");
    (K_email, str "sara@example.com"); (K_phone, str "0500000000");
    (K_projectType, str "blog"); (K_message, str "Hello") ].

(** A first name given as the number 7. *)
Definition numeric_first_name : jsobject :=
  [ (K_firstName, JNum (binary64 7)); (K_lastName, str "Ali");
    (K_email, str "sara@example.com"); (K_phone, str "0500000000");
    (K_projectType, str "landing"); (K_message, str "Hello") ].

Definition env_empty : process_env :=
  {| SMTP_HOST := None; SMTP_PORT := None; SMTP_USER := None;
     SMTP_PASS := None; MAIL_FROM := None; MAIL_TO := None |}.

Definition env_smtp : process_env :=
  {| SMTP_HOST := Some (utf16 "smtp.example.com");
     SMTP_PORT := Some (utf16 "465");
     SMTP_USER := Some (utf16 "owner@example.com");
     SMTP_PASS := Some (utf16 "secret");
     MAIL_FROM := None; MAIL_TO := None |}.

Definition some_error : jsval :=
  JObj [(K_message, str "connect ECONNREFUSED 127.0.0.1:587")].

Definition queued : send_info :=
  {| info_message := None; info_messageId := Some (utf16 "<1@example.com>") |}.

Definition world_smtp_ready : world :=
  {| smtp_create := fun _ => None;
     smtp_verify := fun _ => None;
     smtp_send := fun _ _ => Ok queued;
     stream_render := mail_text;
     stream_message_id := fun _ => utf16 "<2@example.com>" |}.

Definition world_verify_fails : world :=
  {| smtp_create := fun _ => None;
     smtp_verify := fun _ => Some some_error;
     smtp_send := fun _ _ => Throw some_error;
     stream_render := mail_text;
     stream_message_id := fun _ => utf16 "<2@example.com>" |}.



(** Two origins, and a [CORS_ORIGIN] that lists them untidily. *)
Definition two_origins : list jsstring :=
  [utf16 "https://a.example"; utf16 "https://b.example"].

Definition untidy_origins : jsstring :=
  utf16 " https://a.example , ,https://b.example,".

(** Sara's submission with [projectType: false]. *)
Definition sara_false_type : jsobject :=
  [ (K_firstName, str "Sara"); (K_lastName, str "Ali");
    (K_email, str "sara@example.com"); (K_phone, str "0500000000");
    (K_projectType, JBool false); (K_message, str "Hello") ].


(** Stand-ins for the two operations of the engine. *)
Definition sample_ToString (v : jsval) : result jsstring :=
  Ok (utf16 "[object Object]").

Definition sample_StringToNumber (s : jsstring) : spec_float :=
  if jsstring_eqb s (utf16 "465") then binary64 465 else S754_nan.

(** ** Strings and values *)

Lemma jsstring_eqb_eq (a b : jsstring) : jsstring_eqb a b = true <-> a = b.
Proof.
  unfold jsstring_eqb.
  destruct (list_eq_dec N.eq_dec a b) as [E | E]; split; intro H;
    try assumption; try reflexivity; try discriminate.
  contradiction.
Qed.

Lemma jsstring_eqb_refl (a : jsstring) : jsstring_eqb a a = true.
Proof. apply jsstring_eqb_eq. reflexivity. Qed.

Lemma jsstring_eqb_neq (a b : jsstring) : jsstring_eqb a b = false <-> a <> b.
Proof.
  unfold jsstring_eqb.
  destruct (list_eq_dec N.eq_dec a b) as [E | E]; split; intro H;
    try assumption; try reflexivity; try discriminate.
  contradiction.
Qed.

Lemma length_pos_iff (s : jsstring) :
  Nat.ltb 0 (List.length s) = true <-> s <> [].
Proof.
  destruct s as [| c r]; simpl; split; intro H;
    try discriminate; try reflexivity; congruence.
Qed.

(** The string operations at a few inputs. *)

Example utf16_arabic : utf16 "خطأ" = [0x62E; 0x637; 0x623]%N.
Proof. vm_compute. reflexivity. Qed.

Example utf16_surrogates : utf16 "📧" = [0xD83D; 0xDCE7]%N.
Proof. vm_compute. reflexivity. Qed.

Example trim_both_ends :
  trim ([0xA0; 0x2003; 9; 10]%N ++ utf16 "a b" ++ [0xFEFF; 0x3000; 13]%N)
  = utf16 "a b".
Proof. vm_compute. reflexivity. Qed.

Example trim_blank : trim [32; 9; 10; 0x2028]%N = [].
Proof. vm_compute. reflexivity. Qed.

Example mask_keeps_last_three :
  mask (utf16 "owner@example.com") = utf16 "**************com".
Proof. vm_compute. reflexivity. Qed.

Example port_465_is_secure :
  SFeqb (binary64 465) (binary64 465) = true
  /\ SFeqb (binary64 587) (binary64 465) = false.
Proof. split; vm_compute; reflexivity. Qed.

(** ** The validator *)

Lemma reqStr_true_iff (v : jsval) :
  reqStr v = true <-> exists s, v = JStr s /\ trim s <> [].
Proof.
  split.
  - unfold reqStr. destruct v; simpl; try discriminate.
    intro H. exists s. split; [reflexivity |].
    apply length_pos_iff. exact H.
  - intros (s & -> & H). unfold reqStr. simpl.
    apply length_pos_iff. exact H.
Qed.

Lemma reqStr_missing_or_blank (v : jsval) :
  missing_or_blank v -> reqStr v = false.
Proof.
  intros [-> | (s & -> & H)]; [reflexivity |].
  unfold reqStr. simpl. rewrite H. reflexivity.
Qed.

Lemma reqStr_not_string (v : jsval) :
  typeof v <> TyString -> reqStr v = false.
Proof.
  unfold reqStr. destruct v; simpl; intro H; try reflexivity.
  exfalso. apply H. reflexivity.
Qed.

(** The loop-free body of [validatePayload] pushes exactly the messages
    of the violated rules, in the order of the rules. *)
Lemma validatePayload_rules (body : jsobject) :
  validatePayload body = applicable_errors body.
Proof.
  unfold validatePayload, applicable_errors, validation_rules, push.
  cbn [map filter fst snd].
  generalize ERR_FIRST_NAME ERR_LAST_NAME ERR_EMAIL ERR_PHONE ERR_MESSAGE
             ERR_PROJECT_TYPE.
  intros e1 e2 e3 e4 e5 e6.
  destruct (reqStr (get body K_firstName));
    destruct (reqStr (get body K_lastName));
    destruct (reqStr (get body K_email));
    destruct (reqStr (get body K_phone));
    destruct (reqStr (get body K_message));
    destruct (truthy (get body K_projectType)
              && negb (set_has ALLOWED_TYPES (get body K_projectType)));
    reflexivity.
Qed.

Lemma applicable_errors_In (body : jsobject) (msg : jsstring) :
  In msg (applicable_errors body) <->
  exists test, In (test, msg) validation_rules /\ test body = true.
Proof.
  unfold applicable_errors. rewrite in_map_iff. split.
  - intros ([test m] & Hm & Hin). simpl in Hm. subst m.
    apply filter_In in Hin. destruct Hin as [Hin Ht].
    exists test. split; assumption.
  - intros (test & Hin & Ht). exists (test, msg). split; [reflexivity |].
    apply filter_In. split; assumption.
Qed.

Lemma required_rule (k msg : jsstring) :
  In (k, msg) required_fields ->
  In (fun body => negb (reqStr (get body k)), msg) validation_rules.
Proof.
  unfold required_fields, validation_rules.
  intros [H | [H | [H | [H | [H | []]]]]];
    apply pair_equal_spec in H; destruct H as [<- <-].
  - left. reflexivity.
  - right. left. reflexivity.
  - do 2 right. left. reflexivity.
  - do 3 right. left. reflexivity.
  - do 4 right. left. reflexivity.
Qed.

(** A required field that fails [reqStr] puts its message in the list. *)
Lemma required_field_error (body : jsobject) (k msg : jsstring) :
  In (k, msg) required_fields ->
  reqStr (get body k) = false ->
  In msg (validatePayload body).
Proof.
  intros Hin Hreq. rewrite validatePayload_rules.
  apply applicable_errors_In.
  exists (fun body => negb (reqStr (get body k))). split.
  - apply required_rule. exact Hin.
  - simpl. rewrite Hreq. reflexivity.
Qed.

Lemma validatePayload_nil_iff (body : jsobject) :
  validatePayload body = [] <->
  reqStr (get body K_firstName) = true
  /\ reqStr (get body K_lastName) = true
  /\ reqStr (get body K_email) = true
  /\ reqStr (get body K_phone) = true
  /\ reqStr (get body K_message) = true
  /\ truthy (get body K_projectType)
     && negb (set_has ALLOWED_TYPES (get body K_projectType)) = false.
Proof.
  unfold validatePayload, push.
  generalize ERR_FIRST_NAME ERR_LAST_NAME ERR_EMAIL ERR_PHONE ERR_MESSAGE
             ERR_PROJECT_TYPE.
  intros e1 e2 e3 e4 e5 e6.
  destruct (reqStr (get body K_firstName));
    destruct (reqStr (get body K_lastName));
    destruct (reqStr (get body K_email));
    destruct (reqStr (get body K_phone));
    destruct (reqStr (get body K_message));
    destruct (truthy (get body K_projectType)
              && negb (set_has ALLOWED_TYPES (get body K_projectType)));
    simpl; split; intro H; try discriminate; try reflexivity;
    try (repeat split; reflexivity);
    try (destruct H as (H1 & H2 & H3 & H4 & H5 & H6); discriminate).
Qed.

(** Reading the object literal the handler builds. *)
Lemma get_payload (fn ln em ph pt msg : jsval) :
  get (payload fn ln em ph pt msg) K_firstName = fn
  /\ get (payload fn ln em ph pt msg) K_lastName = ln
  /\ get (payload fn ln em ph pt msg) K_email = em
  /\ get (payload fn ln em ph pt msg) K_phone = ph
  /\ get (payload fn ln em ph pt msg) K_projectType = pt
  /\ get (payload fn ln em ph pt msg) K_message = msg.
Proof.
  repeat split; vm_compute; reflexivity.
Qed.

(** A submission the validator accepts carries five non-blank strings,
    and its [projectType || "-"] is a string. *)
Lemma valid_submission_fields (b : jsobject) :
  validatePayload (payload_of b) = [] ->
  exists fn ln em ph p msg,
    get b K_firstName = JStr fn
    /\ get b K_lastName = JStr ln
    /\ get b K_email = JStr em
    /\ get b K_phone = JStr ph
    /\ get b K_message = JStr msg
    /\ js_or (default_to (JStr []) (get b K_projectType)) (JStr DASH) = JStr p
    /\ em <> [].
Proof.
  intro H. apply validatePayload_nil_iff in H.
  unfold payload_of in H.
  destruct (get_payload (get b K_firstName) (get b K_lastName)
              (get b K_email) (get b K_phone)
              (default_to (JStr []) (get b K_projectType))
              (get b K_message)) as (G1 & G2 & G3 & G4 & G5 & G6).
  rewrite G1, G2, G3, G4, G5, G6 in H.
  destruct H as (H1 & H2 & H3 & H4 & H5 & H6).
  apply reqStr_true_iff in H1, H2, H3, H4, H5.
  destruct H1 as (fn & E1 & _), H2 as (ln & E2 & _), H3 as (em & E3 & T3),
           H4 as (ph & E4 & _), H5 as (msg & E5 & _).
  assert (exists p,
    js_or (default_to (JStr []) (get b K_projectType)) (JStr DASH) = JStr p)
    as (p & Hp).
  { unfold js_or.
    destruct (truthy (default_to (JStr []) (get b K_projectType))) eqn:Ht.
    - simpl in H6. apply negb_false_iff in H6.
      destruct (default_to (JStr []) (get b K_projectType));
        try discriminate H6.
      exists s. reflexivity.
    - exists DASH. reflexivity. }
  exists fn, ln, em, ph, p, msg. repeat split; try assumption.
  intros ->. apply T3. reflexivity.
Qed.

Lemma set_has_iff (members : list jsstring) (v : jsval) :
  set_has members v = true <-> exists t, In t members /\ v = JStr t.
Proof.
  split.
  - destruct v; simpl; try discriminate.
    intro H. apply existsb_exists in H. destruct H as (t & Hin & Heq).
    apply jsstring_eqb_eq in Heq. subst t. exists s. split; [assumption |].
    reflexivity.
  - intros (t & Hin & ->). simpl. apply existsb_exists.
    exists t. split; [assumption | apply jsstring_eqb_refl].
Qed.

Lemma get_payload_of_required (b : jsobject) (k msg : jsstring) :
  In (k, msg) required_fields ->
  get (payload_of b) k = get b k.
Proof.
  unfold payload_of.
  destruct (get_payload (get b K_firstName) (get b K_lastName)
              (get b K_email) (get b K_phone)
              (default_to (JStr []) (get b K_projectType))
              (get b K_message)) as (H1 & H2 & H3 & H4 & H5 & H6).
  intros [H | [H | [H | [H | [H | []]]]]];
    apply pair_equal_spec in H; destruct H as [<- _]; assumption.
Qed.

(** C4 (amended).  With the five required fields valid: a
    [projectType] that is truthy (any non-empty string, any other
    truthy value) and is none of the six entries of [ALLOWED_TYPES]
    makes validation fail with exactly the invalid-project-type error;
    an absent or empty [projectType], each of the six entries, and
    every other falsy value ([null], [false], [0]) pass with an empty
    error list: the guard [body.projectType &&] lets them through. *)
Theorem project_type_validation (body : jsobject) :
  reqStr (get body K_firstName) = true ->
  reqStr (get body K_lastName) = true ->
  reqStr (get body K_email) = true ->
  reqStr (get body K_phone) = true ->
  reqStr (get body K_message) = true ->
  ALLOWED_TYPES
  = [ utf16 "landing"; utf16 "website"; utf16 "ecommerce";
      utf16 "info-app"; utf16 "booking-app"; utf16 "custom" ]
  /\ (truthy (get body K_projectType) = true ->
      (forall t, In t ALLOWED_TYPES -> get body K_projectType <> JStr t) ->
      validatePayload body = [ERR_PROJECT_TYPE])
  /\ (get body K_projectType = JUndefined
      \/ get body K_projectType = JStr []
      \/ (exists t, In t ALLOWED_TYPES /\ get body K_projectType = JStr t) ->
      validatePayload body = [])
  /\ (truthy (get body K_projectType) = false -> validatePayload body = []).
Proof.
  intros H1 H2 H3 H4 H5. split; [reflexivity |]. split; [| split].
  3: { intro Hf. apply validatePayload_nil_iff.
       repeat (split; [assumption |]). rewrite Hf. reflexivity. }
  - intros Ht Hout.
    assert (set_has ALLOWED_TYPES (get body K_projectType) = false) as Hs.
    { destruct (set_has ALLOWED_TYPES (get body K_projectType)) eqn:E;
        [| reflexivity].
      apply set_has_iff in E. destruct E as (t & Hin & Heq).
      exfalso. exact (Hout t Hin Heq). }
    unfold validatePayload, push. rewrite H1, H2, H3, H4, H5, Ht, Hs.
    reflexivity.
  - intro Hcase. apply validatePayload_nil_iff.
    repeat (split; [assumption |]).
    destruct Hcase as [E | [E | (t & Hin & E)]].
    + rewrite E. reflexivity.
    + rewrite E. reflexivity.
    + assert (set_has ALLOWED_TYPES (get body K_projectType) = true) as Hs.
      { apply set_has_iff. exists t. split; assumption. }
      rewrite Hs. apply andb_false_r.
Qed.

(** C10.  A required field whose value is not a string (a number, a
    boolean, [null], an array, an object) is treated as a missing one:
    [reqStr] rejects it and the message of the field is in the error
    list, although the value is present. *)
Theorem non_string_required_field (body : jsobject) (k msg : jsstring) :
  In (k, msg) required_fields ->
  typeof (get body k) <> TyString ->
  reqStr (get body k) = reqStr JUndefined
  /\ In msg (validatePayload body).
Proof.
  intros Hin Hty.
  assert (reqStr (get body k) = false) as Hreq
    by (apply reqStr_not_string; exact Hty).
  split.
  - rewrite Hreq. reflexivity.
  - apply (required_field_error body k msg Hin Hreq).
Qed.

(** A rejected submission is answered at once, in any state. *)
Lemma handle_invalid_at (ts : jsval -> result jsstring)
    (sn : jsstring -> spec_float) (w : world) (env : process_env)
    (b : jsobject) (t : trace) :
  honeypot (get b K_company) = false ->
  validatePayload (payload_of b) <> [] ->
  contact_handler ts sn w env b t
  = (Ok (response_invalid (validatePayload (payload_of b))), t).
Proof.
  intros Hh Hv. unfold contact_handler. rewrite Hh.
  fold (payload_of b).
  destruct (validatePayload (payload_of b)) as [| e es].
  - exfalso. apply Hv. reflexivity.
  - reflexivity.
Qed.

Section Properties.

Variable engine_ToString : jsval -> result jsstring.
Variable StringToNumber : jsstring -> spec_float.

Local Abbreviation handle :=
  (contact_handler engine_ToString StringToNumber).
Local Abbreviation options := (smtp_options_of StringToNumber).

Lemma bind_run {A B : Type} (m : M A) (k : A -> M B) (t : trace) :
  bind m k t
  = match m t with
    | (Ok a, t') => k a t'
    | (Throw err, t') => (Throw err, t')
    end.
Proof. reflexivity. Qed.

Lemma bind_lift_ok {A B : Type} (a : A) (k : A -> M B) (t : trace) :
  bind (lift (Ok a)) k t = k a t.
Proof. reflexivity. Qed.

(** The send step and the console line after it. *)
Lemma send_step (w : world) (t : transport) (m : mail) (r : response)
    (tr : trace) :
  (info <- sendMail w t m ;;
   match info_message info with
   | Some content => console (LogMailConsole content)
   | None =>
     match info_messageId info with
     | Some id =>
       if truthy (JStr id) then console (LogMailQueued id) else ret tt
     | None => ret tt
     end
   end ;;
   ret r) tr
  = match send_outcome w t m with
    | Ok info => (Ok r, tr ++ EvSendMail t m :: delivery_log info)
    | Throw err => (Throw err, tr ++ [EvSendMail t m])
    end.
Proof.
  unfold sendMail, bind, emit, lift, console, emit, ret, throw, delivery_log.
  destruct (send_outcome w t m) as [info | err]; [| reflexivity].
  destruct (info_message info) as [content |].
  { rewrite <- app_assoc. reflexivity. }
  destruct (info_messageId info) as [id |].
  - destruct (truthy (JStr id)).
    + rewrite <- app_assoc. reflexivity.
    + reflexivity.
  - reflexivity.
Qed.

Lemma text_template_strings (fn ln em ph msg : jsstring)
    (pt : jsval) (p : jsstring) :
  js_or pt (JStr DASH) = JStr p ->
  template_literal engine_ToString
    (text_template (JStr fn) (JStr ln) (JStr em) (JStr ph) pt (JStr msg))
  = Ok (text_body fn ln em ph p msg).
Proof.
  intro Hp. unfold text_template, text_body. rewrite Hp.
  cbn [template_literal ToString].
  rewrite app_nil_r, <- !app_assoc. reflexivity.
Qed.

Lemma html_template_strings (fn ln em ph msg : jsstring)
    (pt : jsval) (p : jsstring) :
  js_or pt (JStr DASH) = JStr p ->
  template_literal engine_ToString
    (html_template (JStr fn) (JStr ln) (JStr em) (JStr ph) pt (JStr msg))
  = Ok (html_body fn ln em ph p msg).
Proof.
  intro Hp. unfold html_template, html_body. rewrite Hp.
  cbn [template_literal ToString].
  rewrite <- !app_assoc. reflexivity.
Qed.

(** *** Transport resolution *)

Lemma getTransporter_create_throws (w : world) (env : process_env)
    (err : jsval) :
  smtp_create w (options env) = Some err ->
  getTransporter StringToNumber w env []
  = (Throw err, [EvCreateTransport (options env)]).
Proof.
  intro Hc. unfold getTransporter, createTransport, bind, emit.
  simpl. rewrite Hc. reflexivity.
Qed.

Lemma getTransporter_verify_fails (w : world) (env : process_env)
    (err : jsval) :
  smtp_create w (options env) = None ->
  smtp_verify w (options env) = Some err ->
  getTransporter StringToNumber w env []
  = (Ok StreamTransport, trace_fallback (options env) err).
Proof.
  intros Hc Hv.
  unfold getTransporter, createTransport, verify, try_catch, bind, emit.
  simpl. rewrite Hc. simpl. rewrite Hv. reflexivity.
Qed.

Lemma getTransporter_verified (w : world) (env : process_env) :
  smtp_create w (options env) = None ->
  smtp_verify w (options env) = None ->
  getTransporter StringToNumber w env []
  = (Ok (SmtpTransport (options env)), trace_verified env (options env)).
Proof.
  intros Hc Hv.
  unfold getTransporter, createTransport, verify, try_catch, bind, emit.
  simpl. rewrite Hc. simpl. rewrite Hv. reflexivity.
Qed.

(** *** The three exits of the handler *)

Lemma handle_honeypot (w : world) (env : process_env) (b : jsobject) :
  honeypot (get b K_company) = true ->
  handle w env b [] = (Ok (response_ok MSG_RECEIVED), []).
Proof.
  intro Hh. unfold contact_handler. rewrite Hh. reflexivity.
Qed.

Lemma handle_invalid (w : world) (env : process_env) (b : jsobject) :
  honeypot (get b K_company) = false ->
  validatePayload (payload_of b) <> [] ->
  handle w env b []
  = (Ok (response_invalid (validatePayload (payload_of b))), []).
Proof.
  intros Hh Hv. apply handle_invalid_at; assumption.
Qed.

(** What a valid submission that is not a honeypot hit does, by the
    answers of the world. *)
Lemma handle_valid (w : world) (env : process_env) (b : jsobject) :
  honeypot (get b K_company) = false ->
  validatePayload (payload_of b) = [] ->
  exists fn ln em ph p msg,
    get b K_firstName = JStr fn /\ get b K_lastName = JStr ln
    /\ get b K_email = JStr em /\ get b K_phone = JStr ph
    /\ get b K_message = JStr msg
    /\ js_or (default_to (JStr []) (get b K_projectType)) (JStr DASH)
       = JStr p
    /\ em <> []
    /\ let o := options env in
       let m := contact_mail env fn ln em ph p msg in
       match smtp_create w o with
       | Some err =>
         handle w env b []
         = (Ok response_failure,
            [EvCreateTransport o; EvConsole (ErrDispatch err)])
       | None =>
         match smtp_verify w o with
         | Some err =>
           handle w env b []
           = (Ok (response_ok MSG_SUCCESS),
              trace_fallback o err
              ++ [EvSendMail StreamTransport m;
                  EvConsole (LogMailConsole (stream_render w m))])
         | None =>
           match smtp_send w o m with
           | Throw err =>
             handle w env b []
             = (Ok response_failure,
                trace_verified env o
                ++ [EvSendMail (SmtpTransport o) m;
                    EvConsole (ErrDispatch err)])
           | Ok info =>
             handle w env b []
             = (Ok (response_ok MSG_SUCCESS),
                trace_verified env o
                ++ EvSendMail (SmtpTransport o) m :: delivery_log info)
           end
         end
       end.
Proof.
  intros Hh Hv.
  destruct (valid_submission_fields b Hv)
    as (fn & ln & em & ph & p & msg & E1 & E2 & E3 & E4 & E5 & Ep & Hem).
  exists fn, ln, em, ph, p, msg.
  repeat (split; [assumption |]).
  cbv zeta.
  unfold contact_handler. rewrite Hh. fold (payload_of b). rewrite Hv.
  cbn [List.length Nat.eqb negb].
  rewrite E1, E2, E3, E4, E5.
  unfold dispatch, try_catch. rewrite bind_run.
  destruct (smtp_create w (options env)) as [err |] eqn:Hc.
  - rewrite (getTransporter_create_throws w env err Hc). reflexivity.
  - destruct (smtp_verify w (options env)) as [err |] eqn:Hver.
    + rewrite (getTransporter_verify_fails w env err Hc Hver).
      rewrite (html_template_strings fn ln em ph msg _ p Ep).
      rewrite (text_template_strings fn ln em ph msg _ p Ep).
      rewrite !bind_lift_ok, send_step.
      reflexivity.
    + rewrite (getTransporter_verified w env Hc Hver).
      rewrite (html_template_strings fn ln em ph msg _ p Ep).
      rewrite (text_template_strings fn ln em ph msg _ p Ep).
      rewrite !bind_lift_ok, send_step.
      cbn [send_outcome]. fold (contact_mail env fn ln em ph p msg).
      destruct (smtp_send w (options env)
                  (contact_mail env fn ln em ph p msg)) as [info | err];
        reflexivity.
Qed.

(** *** Where the send events of a trace are *)

Lemma no_send_in (tr : trace) (t : transport) (m : mail) :
  forallb (fun e => negb (is_send e)) tr = true ->
  ~ In (EvSendMail t m) tr.
Proof.
  intros Hall Hin. rewrite forallb_forall in Hall.
  specialize (Hall _ Hin). discriminate Hall.
Qed.

Lemma delivery_log_no_send (info : send_info) :
  forallb (fun e => negb (is_send e)) (delivery_log info) = true.
Proof.
  unfold delivery_log.
  destruct (info_message info); [reflexivity |].
  destruct (info_messageId info) as [id |]; [| reflexivity].
  destruct (truthy (JStr id)); reflexivity.
Qed.

Lemma only_send (pre post : trace) (t t' : transport) (m m' : mail) :
  forallb (fun e => negb (is_send e)) pre = true ->
  forallb (fun e => negb (is_send e)) post = true ->
  In (EvSendMail t m) (pre ++ EvSendMail t' m' :: post) ->
  t = t' /\ m = m'.
Proof.
  intros Hpre Hpost Hin. apply in_app_or in Hin.
  destruct Hin as [Hin | [Heq | Hin]].
  - exfalso. exact (no_send_in _ _ _ Hpre Hin).
  - inversion Heq. split; reflexivity.
  - exfalso. exact (no_send_in _ _ _ Hpost Hin).
Qed.

(** The handler always answers: it never throws. *)
Lemma handle_responds (w : world) (env : process_env) (b : jsobject) :
  exists r tr, handle w env b [] = (Ok r, tr) /\ response_form b r.
Proof.
  destruct (honeypot (get b K_company)) eqn:Hh.
  { exists (response_ok MSG_RECEIVED), [].
    split; [apply handle_honeypot; exact Hh | left; reflexivity]. }
  destruct (validatePayload (payload_of b)) as [| e es] eqn:Hv.
  2: { exists (response_invalid (e :: es)), []. split.
       - rewrite <- Hv. apply handle_invalid; [exact Hh |].
         rewrite Hv. discriminate.
       - do 2 right. left. rewrite Hv. reflexivity. }
  destruct (handle_valid w env b Hh Hv)
    as (fn & ln & em & ph & p & msg & _ & _ & _ & _ & _ & _ & _ & Hrun).
  cbv zeta in Hrun.
  destruct (smtp_create w (options env)) as [err |].
  { eexists _, _. split; [exact Hrun | do 3 right; reflexivity]. }
  destruct (smtp_verify w (options env)) as [err |].
  { eexists _, _. split; [exact Hrun | right; left; reflexivity]. }
  destruct (smtp_send w (options env) (contact_mail env fn ln em ph p msg))
    as [info | err].
  - eexists _, _. split; [exact Hrun | right; left; reflexivity].
  - eexists _, _. split; [exact Hrun | do 3 right; reflexivity].
Qed.

(** Every mail handed to [sendMail] is the mail of a valid submission,
    and it goes to the transport the resolution chose. *)
Lemma sent_mail (w : world) (env : process_env) (b : jsobject)
    (t : transport) (m : mail) :
  In (EvSendMail t m) (snd (handle w env b [])) ->
  exists fn ln em ph p msg,
    get b K_firstName = JStr fn /\ get b K_lastName = JStr ln
    /\ get b K_email = JStr em /\ get b K_phone = JStr ph
    /\ get b K_message = JStr msg
    /\ js_or (default_to (JStr []) (get b K_projectType)) (JStr DASH) = JStr p
    /\ m = contact_mail env fn ln em ph p msg
    /\ honeypot (get b K_company) = false
    /\ validatePayload (payload_of b) = []
    /\ smtp_create w (options env) = None
    /\ ((exists err, smtp_verify w (options env) = Some err)
           /\ t = StreamTransport
        \/ smtp_verify w (options env) = None
           /\ t = SmtpTransport (options env)).
Proof.
  intro Hin.
  destruct (honeypot (get b K_company)) eqn:Hh.
  { rewrite (handle_honeypot w env b Hh) in Hin. destruct Hin. }
  destruct (validatePayload (payload_of b)) as [| e es] eqn:Hv.
  2: { rewrite (handle_invalid w env b Hh) in Hin.
       - destruct Hin.
       - rewrite Hv. discriminate. }
  destruct (handle_valid w env b Hh Hv)
    as (fn & ln & em & ph & p & msg & E1 & E2 & E3 & E4 & E5 & Ep & _ & Hrun).
  exists fn, ln, em, ph, p, msg.
  repeat (split; [assumption |]).
  cbv zeta in Hrun.
  destruct (smtp_create w (options env)) as [err |].
  { rewrite Hrun in Hin. simpl in Hin.
    destruct Hin as [H | [H | []]]; discriminate H. }
  destruct (smtp_verify w (options env)) as [err |].
  { rewrite Hrun in Hin. cbn [snd] in Hin.
    apply only_send in Hin; try reflexivity.
    destruct Hin as [-> ->].
    repeat (split; [reflexivity |]).
    left. split; [exists err |]; reflexivity. }
  destruct (smtp_send w (options env) (contact_mail env fn ln em ph p msg))
    as [info | err]; rewrite Hrun in Hin; cbn [snd] in Hin;
    apply only_send in Hin;
    try reflexivity; try apply delivery_log_no_send;
    destruct Hin as [-> ->];
    repeat (split; [reflexivity |]);
    right; split; reflexivity.
Qed.

(** A valid submission that is not a honeypot hit reaches [sendMail]
    as soon as the SMTP transport can be created. *)
Lemma send_happens (w : world) (env : process_env) (b : jsobject) :
  honeypot (get b K_company) = false ->
  validatePayload (payload_of b) = [] ->
  smtp_create w (options env) = None ->
  exists t m, In (EvSendMail t m) (snd (handle w env b [])).
Proof.
  intros Hh Hv Hc.
  destruct (handle_valid w env b Hh Hv)
    as (fn & ln & em & ph & p & msg & _ & _ & _ & _ & _ & _ & _ & Hrun).
  cbv zeta in Hrun. rewrite Hc in Hrun.
  destruct (smtp_verify w (options env)) as [err |].
  { rewrite Hrun. eexists _, _. cbn [snd].
    apply in_or_app. right. left. reflexivity. }
  destruct (smtp_send w (options env) (contact_mail env fn ln em ph p msg))
    as [info | err]; rewrite Hrun; eexists _, _; cbn [snd];
    apply in_or_app; right; left; reflexivity.
Qed.

Lemma truthy_env_get (x : option jsstring) : truthy (env_get x) = is_set x.
Proof. destruct x; reflexivity. Qed.

Lemma fromAddr_sender (env : process_env) : fromAddr env = sender_of env.
Proof.
  unfold fromAddr, sender_of, js_or.
  rewrite (truthy_env_get (MAIL_FROM env)).
  destruct (is_set (MAIL_FROM env)) eqn:Ef.
  - rewrite truthy_env_get, Ef. reflexivity.
  - rewrite truthy_env_get. reflexivity.
Qed.

Lemma toAddr_recipient (env : process_env) (email : jsval) :
  toAddr env email = recipient_of env email.
Proof.
  unfold toAddr, recipient_of, js_or.
  rewrite (truthy_env_get (MAIL_TO env)).
  destruct (is_set (MAIL_TO env)) eqn:Ef.
  - rewrite truthy_env_get, Ef. reflexivity.
  - rewrite truthy_env_get. reflexivity.
Qed.

(** *** The properties of the endpoint *)

(** C1 (amended).  When one of [firstName], [lastName], [email],
    [phone], [message] is missing or blank after trimming, the
    validator returns a non-empty error list that contains the message
    of that field; and unless the honeypot field [company] is a
    non-blank string, [POST /api/contact] answers with status 400 and
    [ok: false], the error list carrying that message. *)
Theorem missing_required_field_rejected (w : world) (env : process_env)
    (b : jsobject) (k msg : jsstring) :
  In (k, msg) required_fields ->
  missing_or_blank (get b k) ->
  In msg (validatePayload b)
  /\ validatePayload b <> []
  /\ (honeypot (get b K_company) = false ->
      exists errors,
        handle w env b []
        = (Ok {| res_status := 400;
                 res_json := JObj [(K_ok, JBool false);
                                   (K_message, first_error errors);
                                   (K_errors, JArr (map JStr errors))] |},
           [])
        /\ In msg errors /\ errors <> []).
Proof.
  intros Hin Hmiss.
  assert (In msg (validatePayload b)) as Hb.
  { apply (required_field_error b k msg Hin).
    apply reqStr_missing_or_blank. exact Hmiss. }
  split; [exact Hb |]. split.
  { intro E. rewrite E in Hb. exact Hb. }
  intro Hh.
  assert (In msg (validatePayload (payload_of b))) as Hp.
  { apply (required_field_error (payload_of b) k msg Hin).
    rewrite (get_payload_of_required b k msg Hin).
    apply reqStr_missing_or_blank. exact Hmiss. }
  assert (validatePayload (payload_of b) <> []) as Hne.
  { intro E. rewrite E in Hp. exact Hp. }
  exists (validatePayload (payload_of b)).
  split; [| split; assumption].
  apply (handle_invalid w env b Hh Hne).
Qed.

(** C2 (amended).  When [company] is a string that is not blank after
    trimming, the handler answers 200 with the acknowledgment and does
    nothing else: the trace is empty (no transport is created, nothing
    is sent), whatever the other fields are and whatever the validator
    would say about them. *)
Theorem honeypot_acknowledged (w : world) (env : process_env)
    (b : jsobject) (s : jsstring) :
  get b K_company = JStr s ->
  trim s <> [] ->
  handle w env b []
  = (Ok {| res_status := 200;
           res_json := JObj [(K_ok, JBool true);
                             (K_message, JStr MSG_RECEIVED)] |},
     []).
Proof.
  intros Hc Ht. apply handle_honeypot.
  rewrite Hc. unfold honeypot. simpl.
  apply negb_true_iff. apply jsstring_eqb_neq. exact Ht.
Qed.

(** C3.  For a valid submission, when the SMTP transport was created
    and its verify step fails, [getTransporter] does not throw and
    returns the stream transport, and the request completes with status
    200 and [ok: true]; unless the honeypot answered first, the mail
    went to the stream transport and to no other. *)
Theorem verify_failure_falls_back (w : world) (env : process_env)
    (b : jsobject) (err : jsval) :
  validatePayload (payload_of b) = [] ->
  smtp_create w (options env) = None ->
  smtp_verify w (options env) = Some err ->
  getTransporter StringToNumber w env []
  = (Ok StreamTransport, trace_fallback (options env) err)
  /\ exists tr,
       handle w env b []
       = (Ok {| res_status := 200;
                res_json :=
                  JObj [(K_ok, JBool true);
                        (K_message,
                         JStr (if honeypot (get b K_company)
                               then MSG_RECEIVED else MSG_SUCCESS))] |},
          tr)
       /\ (honeypot (get b K_company) = false ->
           exists m,
             tr = trace_fallback (options env) err
                  ++ [EvSendMail StreamTransport m;
                      EvConsole (LogMailConsole (stream_render w m))]).
Proof.
  intros Hv Hc Hver. split.
  { apply getTransporter_verify_fails; assumption. }
  destruct (honeypot (get b K_company)) eqn:Hh.
  { exists []. split; [apply handle_honeypot; exact Hh | discriminate]. }
  destruct (handle_valid w env b Hh Hv)
    as (fn & ln & em & ph & p & msg & _ & _ & _ & _ & _ & _ & _ & Hrun).
  cbv zeta in Hrun. rewrite Hc, Hver in Hrun.
  eexists. split; [exact Hrun |].
  intros _. eexists. reflexivity.
Qed.

(** C5.  The validator collects the message of every violated rule, in
    the order firstName, lastName, email, phone, message, projectType;
    and when the list is not empty the handler answers 400 with the
    first error as [message] and the whole list as [errors]. *)
Theorem errors_collected_in_order (w : world) (env : process_env)
    (b : jsobject) :
  validatePayload b = applicable_errors b
  /\ map snd validation_rules
     = [ERR_FIRST_NAME; ERR_LAST_NAME; ERR_EMAIL; ERR_PHONE; ERR_MESSAGE;
        ERR_PROJECT_TYPE]
  /\ (honeypot (get b K_company) = false ->
      forall e es,
        validatePayload (payload_of b) = e :: es ->
        handle w env b []
        = (Ok {| res_status := 400;
                 res_json := JObj [(K_ok, JBool false);
                                   (K_message, JStr e);
                                   (K_errors, JArr (map JStr (e :: es)))] |},
           [])).
Proof.
  split; [apply validatePayload_rules |].
  split; [reflexivity |].
  intros Hh e es Hv.
  rewrite (handle_invalid w env b Hh); rewrite Hv; [reflexivity |].
  discriminate.
Qed.

(** C6.  For the submission of Sara Ali the plain-text body is made of
    the lines "الاسم: Sara Ali", "البريد: sara@example.com",
    "الهاتف: 0500000000", "نوع المشروع: landing", the separator line and
    the message text, in this order, and this is the text of every mail
    the handler sends for it; for strings in the required fields and an
    absent or empty [projectType] the project-type line is
    "نوع المشروع: -". *)
Theorem sara_text_body (w : world) (env : process_env) :
  template_literal engine_ToString
    (text_template (get sara K_firstName) (get sara K_lastName)
       (get sara K_email) (get sara K_phone)
       (default_to (JStr []) (get sara K_projectType))
       (get sara K_message))
  = Ok sara_text
  /\ split_lines sara_text
     = [ utf16 "الاسم: Sara Ali"; utf16 "البريد: sara@example.com";
         utf16 "الهاتف: 0500000000"; utf16 "نوع المشروع: landing";
         utf16 "---"; utf16 "Hello" ]
  /\ (forall t m,
        In (EvSendMail t m) (snd (handle w env sara [])) ->
        mail_text m = sara_text)
  /\ (smtp_create w (options env) = None ->
      exists t m, In (EvSendMail t m) (snd (handle w env sara [])))
  /\ (forall (fn ln em ph msg : jsstring) (pt : jsval),
        pt = JUndefined \/ pt = JStr [] ->
        template_literal engine_ToString
          (text_template (JStr fn) (JStr ln) (JStr em) (JStr ph)
             (default_to (JStr []) pt) (JStr msg))
        = Ok (utf16 "الاسم: " ++ fn ++ utf16 " " ++ ln ++ LF
              ++ utf16 "البريد: " ++ em ++ LF
              ++ utf16 "الهاتف: " ++ ph ++ LF
              ++ utf16 "نوع المشروع: -" ++ LF
              ++ utf16 "---" ++ LF
              ++ msg)).
Proof.
  split; [vm_compute; reflexivity |].
  split; [vm_compute; reflexivity |].
  split; [| split].
  - intros t m Hin.
    destruct (sent_mail w env sara t m Hin)
      as (fn & ln & em & ph & p & msg
          & E1 & E2 & E3 & E4 & E5 & Ep & -> & _).
    vm_compute in E1, E2, E3, E4, E5, Ep.
    injection E1 as <-. injection E2 as <-. injection E3 as <-.
    injection E4 as <-. injection E5 as <-. injection Ep as <-.
    vm_compute. reflexivity.
  - apply send_happens; vm_compute; reflexivity.
  - intros fn ln em ph msg pt Hpt.
    rewrite (text_template_strings fn ln em ph msg _ DASH).
    + unfold text_body.
      change (utf16 "نوع المشروع: -") with (utf16 "نوع المشروع: " ++ DASH).
      rewrite <- !app_assoc. reflexivity.
    + destruct Hpt as [-> | ->]; reflexivity.
Qed.


(** C8.  In every mail the handler sends, the sender is [MAIL_FROM] if
    it is set, else [SMTP_USER] if it is set, else the placeholder
    address; the recipient is [MAIL_TO] if set, else [SMTP_USER] if set,
    else the email of the submitter; reply-to is the email of the
    submitter.  A variable is set when it is defined and not empty. *)
Theorem mail_addresses (w : world) (env : process_env) (b : jsobject) :
  (forall t m,
     In (EvSendMail t m) (snd (handle w env b [])) ->
     mail_from m
     = (if is_set (MAIL_FROM env) then env_get (MAIL_FROM env)
        else if is_set (SMTP_USER env) then env_get (SMTP_USER env)
        else JStr (utf16 "no-reply@example.com"))
     /\ mail_to m
        = (if is_set (MAIL_TO env) then env_get (MAIL_TO env)
           else if is_set (SMTP_USER env) then env_get (SMTP_USER env)
           else get b K_email)
     /\ mail_replyTo m = get b K_email)
  /\ (honeypot (get b K_company) = false ->
      validatePayload (payload_of b) = [] ->
      smtp_create w (options env) = None ->
      exists t m, In (EvSendMail t m) (snd (handle w env b []))).
Proof.
  split; [| apply send_happens].
  intros t m Hin.
  destruct (sent_mail w env b t m Hin)
    as (fn & ln & em & ph & p & msg
        & E1 & E2 & E3 & E4 & E5 & Ep & -> & _).
  unfold contact_mail. cbn [mail_from mail_to mail_replyTo].
  rewrite fromAddr_sender, toAddr_recipient, E3.
  repeat split; reflexivity.
Qed.

End Properties.

(** ** Two calls of the validator *)

Lemma push_at_last (heap : list (list jsstring)) (a : list jsstring)
    (x : jsstring) :
  push_at (List.length heap) x (heap ++ [a]) = heap ++ [push a x].
Proof.
  induction heap as [| b rest IH]; [reflexivity |].
  cbn [List.length app push_at]. rewrite IH. reflexivity.
Qed.

(** A call leaves the Set as it found it and adds one array, the one
    it returns, after the arrays that were there. *)
Lemma validatePayload_in_store_run (body : jsobject) (s : store) :
  validatePayload_in_store body s
  = (List.length (arrays s),
     {| allowed_members := allowed_members s;
        arrays := arrays s ++ [errors_with (allowed_members s) body] |}).
Proof.
  unfold validatePayload_in_store, errors_with, st_bind, new_array, push_if,
    array_push, allowed_types_has, st_ret.
  cbn [allowed_members arrays].
  generalize ERR_FIRST_NAME ERR_LAST_NAME ERR_EMAIL ERR_PHONE ERR_MESSAGE
             ERR_PROJECT_TYPE.
  intros e1 e2 e3 e4 e5 e6.
  destruct (reqStr (get body K_firstName));
    destruct (reqStr (get body K_lastName));
    destruct (reqStr (get body K_email));
    destruct (reqStr (get body K_phone));
    destruct (reqStr (get body K_message));
    destruct (truthy (get body K_projectType));
    cbv beta iota zeta; cbn [negb andb allowed_members arrays];
    try destruct (set_has (allowed_members s) (get body K_projectType));
    cbv beta iota zeta; cbn [negb andb allowed_members arrays];
    rewrite ?push_at_last; reflexivity.
Qed.

Lemma errors_with_allowed_types (body : jsobject) :
  errors_with ALLOWED_TYPES body = validatePayload body.
Proof.
  unfold errors_with, validatePayload, push.
  generalize ERR_FIRST_NAME ERR_LAST_NAME ERR_EMAIL ERR_PHONE ERR_MESSAGE
             ERR_PROJECT_TYPE.
  intros e1 e2 e3 e4 e5 e6.
  destruct (reqStr (get body K_firstName));
    destruct (reqStr (get body K_lastName));
    destruct (reqStr (get body K_email));
    destruct (reqStr (get body K_phone));
    destruct (reqStr (get body K_message));
    destruct (truthy (get body K_projectType)
              && negb (set_has ALLOWED_TYPES (get body K_projectType)));
    reflexivity.
Qed.

Lemma nth_error_last {A : Type} (l : list A) (a : A) :
  nth_error (l ++ [a]) (List.length l) = Some a.
Proof.
  induction l as [| x rest IH]; [reflexivity | exact IH].
Qed.

Lemma nth_error_before {A : Type} (l : list A) (a : A) (n : nat) :
  n < List.length l -> nth_error (l ++ [a]) n = nth_error l n.
Proof.
  revert n. induction l as [| x rest IH]; intros n Hn.
  - cbn [List.length] in Hn. lia.
  - destruct n as [| n']; [reflexivity |].
    cbn [List.length] in Hn. apply IH. lia.
Qed.

(** C9.  With the Set [ALLOWED_TYPES] and the [errors] arrays in a
    store that the calls pass on: two calls of the validator on the
    same record, the second in the store the first one left, return
    two different arrays with identical contents; the first array is
    not touched by the second call, no array that existed before is
    changed, and the Set is left as it was, so nothing a call leaves
    behind reaches the next one.  With the Set as the module creates
    it, the content is the error list of [validatePayload]. *)
Theorem validatePayload_twice_in_store (body : jsobject) (s s1 s2 : store)
    (r1 r2 : array_ref) :
  validatePayload_in_store body s = (r1, s1) ->
  validatePayload_in_store body s1 = (r2, s2) ->
  r1 <> r2
  /\ (exists errors,
        array_at s1 r1 = Some errors
        /\ array_at s2 r1 = Some errors
        /\ array_at s2 r2 = Some errors
        /\ (allowed_members s = ALLOWED_TYPES ->
            errors = validatePayload body))
  /\ allowed_members s1 = allowed_members s
  /\ allowed_members s2 = allowed_members s
  /\ (forall r, r < List.length (arrays s) ->
        array_at s1 r = array_at s r /\ array_at s2 r = array_at s r).
Proof.
  intros H1 H2.
  rewrite validatePayload_in_store_run in H1. injection H1 as <- <-.
  rewrite validatePayload_in_store_run in H2. injection H2 as <- <-.
  cbn [allowed_members arrays]. unfold array_at. cbn [arrays].
  set (heap := arrays s).
  set (errors := errors_with (allowed_members s) body).
  split; [| split; [| split; [| split]]].
  - rewrite length_app. cbn [List.length]. lia.
  - exists errors. split; [apply nth_error_last |]. split; [| split].
    + rewrite nth_error_before; [apply nth_error_last |].
      rewrite length_app. cbn [List.length]. lia.
    + apply nth_error_last.
    + intro Hset. unfold errors. rewrite Hset.
      apply errors_with_allowed_types.
  - reflexivity.
  - reflexivity.
  - intros r Hr. split.
    + apply nth_error_before. exact Hr.
    + rewrite nth_error_before; [apply nth_error_before; exact Hr |].
      rewrite length_app. lia.
Qed.

(** ** The handler on a body that is not an object *)

(** On [undefined] and [null] the handler throws before its [try]; on
    every other body it answers as the handler of submissions does. *)
Lemma contact_route_outcome (ts : jsval -> result jsstring)
    (sn : jsstring -> spec_float) (w : world) (env : process_env)
    (req_body : jsval) :
  (req_body = JUndefined \/ req_body = JNull ->
   contact_route ts sn w env req_body []
   = (Throw (type_error_reading req_body K_company), []))
  /\ (forall props, req_body = JObj props ->
      contact_route ts sn w env req_body []
      = contact_handler ts sn w env props [])
  /\ (req_body <> JUndefined -> req_body <> JNull ->
      exists r tr, contact_route ts sn w env req_body [] = (Ok r, tr)).
Proof.
  split; [| split].
  - intros [-> | ->]; reflexivity.
  - intros props ->. reflexivity.
  - intros Hu Hn.
    destruct req_body; try (exfalso; apply Hu; reflexivity);
      try (exfalso; apply Hn; reflexivity); cbn [contact_route];
      match goal with
      | |- context [contact_handler ts sn w env ?b] =>
        destruct (handle_responds ts sn w env b) as (r & tr & Hrun & _);
        exists r, tr; exact Hrun
      end.
Qed.

(** ** Further properties of the code *)

(** *** Trimming *)

Lemma trimStart_decompose (s : jsstring) :
  exists pre, s = pre ++ trimStart s /\ forallb is_trimmed pre = true.
Proof.
  induction s as [| c r IH].
  - exists []. split; reflexivity.
  - simpl. destruct (is_trimmed c) eqn:Hc.
    + destruct IH as (pre & Hr & Hpre). exists (c :: pre). split.
      * simpl. rewrite <- Hr. reflexivity.
      * simpl. rewrite Hc, Hpre. reflexivity.
    + exists []. split; reflexivity.
Qed.

Lemma trimStart_head (s r : jsstring) (c : code_unit) :
  trimStart s = c :: r -> is_trimmed c = false.
Proof.
  induction s as [| x s' IH]; simpl; [discriminate |].
  destruct (is_trimmed x) eqn:Hx; [exact IH |].
  intro H. injection H as <- _. exact Hx.
Qed.

Lemma trimStart_nil_iff (s : jsstring) :
  trimStart s = [] <-> forallb is_trimmed s = true.
Proof.
  induction s as [| x s' IH]; simpl; [tauto |].
  destruct (is_trimmed x); simpl; [exact IH |].
  split; discriminate.
Qed.

Lemma trimStart_fixed (s : jsstring) :
  match s with [] => true | c :: _ => negb (is_trimmed c) end = true ->
  trimStart s = s.
Proof.
  destruct s as [| c r]; [reflexivity |].
  simpl. destruct (is_trimmed c); [discriminate | reflexivity].
Qed.

Lemma has_visible_false_iff (s : jsstring) :
  has_visible s = false <-> forallb is_trimmed s = true.
Proof.
  unfold has_visible. induction s as [| x s' IH]; simpl; [tauto |].
  destruct (is_trimmed x); simpl; [exact IH |].
  split; discriminate.
Qed.

Lemma all_trimmed_rev (l : jsstring) :
  forallb is_trimmed (rev l) = true -> forallb is_trimmed l = true.
Proof.
  rewrite !forallb_forall. intros H c Hc.
  apply H. apply in_rev in Hc. exact Hc.
Qed.

Lemma rev_nil_inv {A : Type} (l : list A) : rev l = [] -> l = [].
Proof.
  intro H. rewrite <- (rev_involutive l), H. reflexivity.
Qed.

(** [trim] leaves nothing exactly when the string has no visible code
    unit. *)
Lemma trim_nil_iff (s : jsstring) : trim s = [] <-> has_visible s = false.
Proof.
  rewrite has_visible_false_iff. unfold trim, trimEnd. split.
  - intro H. apply rev_nil_inv in H.
    apply trimStart_nil_iff in H. apply all_trimmed_rev in H.
    destruct (trimStart s) as [| c r] eqn:E.
    + apply trimStart_nil_iff. exact E.
    + simpl in H. rewrite (trimStart_head s _ _ E) in H. discriminate H.
  - intro H. apply trimStart_nil_iff in H. rewrite H. reflexivity.
Qed.

Lemma trimStart_In (c : code_unit) (s : jsstring) :
  In c (trimStart s) -> In c s.
Proof.
  destruct (trimStart_decompose s) as (pre & Hs & _).
  intro H. rewrite Hs. apply in_or_app. right. exact H.
Qed.

Lemma trim_In (c : code_unit) (s : jsstring) : In c (trim s) -> In c s.
Proof.
  unfold trim, trimEnd. intro H.
  apply in_rev in H. apply trimStart_In in H. apply in_rev in H.
  apply trimStart_In in H. exact H.
Qed.

Lemma trim_trimmed_ends (s : jsstring) : trimmed_ends (trim s) = true.
Proof.
  unfold trim, trimEnd, trimmed_ends.
  rewrite rev_involutive.
  destruct (trimStart_decompose (rev (trimStart s))) as (pre & Hrev & _).
  apply andb_true_iff. split.
  - destruct (rev (trimStart (rev (trimStart s)))) as [| c r] eqn:E;
      [reflexivity |].
    assert (trimStart s = (c :: r) ++ rev pre) as Ha.
    { rewrite <- E, <- rev_app_distr, <- Hrev, rev_involutive.
      reflexivity. }
    simpl in Ha. rewrite (trimStart_head s _ _ Ha). reflexivity.
  - destruct (trimStart (rev (trimStart s))) as [| c r] eqn:E;
      [reflexivity |].
    rewrite (trimStart_head _ _ _ E). reflexivity.
Qed.

Lemma trim_fixed (s : jsstring) : trimmed_ends s = true -> trim s = s.
Proof.
  unfold trimmed_ends, trim, trimEnd. intro H.
  apply andb_true_iff in H. destruct H as [Hs Hr].
  rewrite (trimStart_fixed s Hs), (trimStart_fixed (rev s) Hr).
  apply rev_involutive.
Qed.

Lemma trim_idempotent (s : jsstring) : trim (trim s) = trim s.
Proof. apply trim_fixed. apply trim_trimmed_ends. Qed.

(** *** What the validator accepts *)

Lemma reqStr_visible_iff (v : jsval) :
  reqStr v = true <-> exists s, v = JStr s /\ has_visible s = true.
Proof.
  rewrite reqStr_true_iff. split; intros (s & -> & H); exists s;
    (split; [reflexivity |]).
  - destruct (has_visible s) eqn:E; [reflexivity |].
    exfalso. apply H. apply trim_nil_iff. exact E.
  - intro E. apply trim_nil_iff in E. rewrite E in H. discriminate H.
Qed.

(** X1.  [reqStr] accepts exactly the strings that have a code unit
    which is neither white space nor a line terminator, and the
    honeypot test of the handler is the same test: it fires on the
    [company] values that would pass as a required field. *)
Theorem reqStr_accepts_visible_strings (v : jsval) :
  (reqStr v = true <-> exists s, v = JStr s /\ has_visible s = true)
  /\ honeypot v = reqStr v.
Proof.
  split; [apply reqStr_visible_iff |].
  unfold honeypot, reqStr. destruct v; try reflexivity.
  simpl. destruct (trim s); reflexivity.
Qed.

(** X2.  The validator returns the empty list exactly when the five
    required fields are strings with a visible code unit and
    [projectType] is falsy or one of the entries of [ALLOWED_TYPES];
    nothing else about the record matters (no format check on [email]
    or [phone]). *)
Theorem validatePayload_accepts_iff (body : jsobject) :
  validatePayload body = [] <->
  (forall k msg, In (k, msg) required_fields ->
     exists s, get body k = JStr s /\ has_visible s = true)
  /\ (truthy (get body K_projectType) = false
      \/ exists t, In t ALLOWED_TYPES /\ get body K_projectType = JStr t).
Proof.
  rewrite validatePayload_nil_iff. split.
  - intros (H1 & H2 & H3 & H4 & H5 & H6). split.
    + intros k msg Hin.
      apply (reqStr_visible_iff (get body k)).
      unfold required_fields in Hin.
      destruct Hin as [H | [H | [H | [H | [H | []]]]]];
        apply pair_equal_spec in H; destruct H as [<- _]; assumption.
    + apply andb_false_iff in H6. destruct H6 as [H6 | H6];
        [left; exact H6 |].
      right. apply negb_false_iff in H6. apply set_has_iff. exact H6.
  - intros (Hreq & Hpt).
    assert (forall k msg, In (k, msg) required_fields ->
            reqStr (get body k) = true) as R.
    { intros k msg Hin.
      apply (reqStr_visible_iff (get body k)).
      exact (Hreq k msg Hin). }
    unfold required_fields in R.
    repeat split.
    + apply (R K_firstName ERR_FIRST_NAME). left. reflexivity.
    + apply (R K_lastName ERR_LAST_NAME). right. left. reflexivity.
    + apply (R K_email ERR_EMAIL). do 2 right. left. reflexivity.
    + apply (R K_phone ERR_PHONE). do 3 right. left. reflexivity.
    + apply (R K_message ERR_MESSAGE). do 4 right. left. reflexivity.
    + destruct Hpt as [Hf | Hin].
      * rewrite Hf. reflexivity.
      * apply set_has_iff in Hin. rewrite Hin. apply andb_false_r.
Qed.

Lemma error_messages_distinct :
  NoDup [ERR_FIRST_NAME; ERR_LAST_NAME; ERR_EMAIL; ERR_PHONE; ERR_MESSAGE;
         ERR_PROJECT_TYPE].
Proof.
  repeat constructor; simpl; intro H;
    repeat (destruct H as [H | H];
            [apply (proj2 (jsstring_eqb_eq _ _)) in H;
             vm_compute in H; discriminate H |]);
    exact H.
Qed.

(** Dropping rules keeps their messages distinct. *)
Lemma messages_stay_distinct
    (keep : (jsobject -> bool) * jsstring -> bool)
    (rules : list ((jsobject -> bool) * jsstring)) :
  NoDup (map snd rules) -> NoDup (map snd (filter keep rules)).
Proof.
  induction rules as [| rule rest IH]; cbn [map filter]; intro Hd;
    [constructor |].
  apply NoDup_cons_iff in Hd. destruct Hd as [Hfresh Hrest].
  destruct (keep rule); [| exact (IH Hrest)].
  cbn [map]. apply NoDup_cons_iff. split; [| exact (IH Hrest)].
  intro Hin. apply Hfresh.
  apply in_map_iff in Hin. destruct Hin as (other & Hmsg & Hother).
  apply filter_In in Hother.
  apply in_map_iff. exists other. split; [exact Hmsg | apply Hother].
Qed.

Lemma kept_at_most {A : Type} (keep : A -> bool) (l : list A) :
  List.length (filter keep l) <= List.length l.
Proof.
  induction l as [| x rest IH]; [apply Nat.le_refl |].
  cbn [filter]. destruct (keep x); cbn [List.length]; lia.
Qed.

(** X3.  Whatever the record, the error list has no message twice, has
    at most six entries, and holds nothing but the six messages of the
    validator. *)
Theorem validatePayload_error_list_shape (body : jsobject) :
  NoDup (validatePayload body)
  /\ List.length (validatePayload body) <= 6
  /\ (forall e, In e (validatePayload body) ->
       In e [ERR_FIRST_NAME; ERR_LAST_NAME; ERR_EMAIL; ERR_PHONE;
             ERR_MESSAGE; ERR_PROJECT_TYPE]).
Proof.
  rewrite validatePayload_rules. unfold applicable_errors.
  split; [| split].
  - apply messages_stay_distinct. exact error_messages_distinct.
  - rewrite length_map.
    apply (Nat.le_trans _ _ _ (kept_at_most _ validation_rules)).
    apply Nat.le_refl.
  - intros e Hin. apply in_map_iff in Hin.
    destruct Hin as (rule & <- & Hr). apply filter_In in Hr.
    destruct Hr as [Hr _].
    assert (map snd validation_rules
            = [ERR_FIRST_NAME; ERR_LAST_NAME; ERR_EMAIL; ERR_PHONE;
               ERR_MESSAGE; ERR_PROJECT_TYPE]) as E by reflexivity.
    rewrite <- E. apply in_map. exact Hr.
Qed.

(** *** The masked user of the log *)

Lemma mask_length (s : jsstring) : List.length (mask s) = List.length s.
Proof.
  induction s as [| c r IH]; [reflexivity |].
  simpl. rewrite IH. reflexivity.
Qed.

Lemma mask_short (s : jsstring) :
  List.length s <= 3 -> mask s = s.
Proof.
  induction s as [| c r IH]; [reflexivity |].
  intro Hlen. simpl in Hlen.
  assert (followed_by_three r = false) as Hf.
  { destruct r as [| c1 [| c2 [| c3 r']]]; try reflexivity.
    simpl in Hlen. lia. }
  cbn [mask]. rewrite Hf, andb_false_r, IH; [reflexivity | lia].
Qed.

(** X4.  The replacement [/.(?=.{3})/g] keeps the length of the user
    name; when the name has no line terminator, every code unit but
    the last three becomes an asterisk and the last three are kept (a
    name of at most three code units is logged as it is). *)
Theorem mask_hides_all_but_last_three (s : jsstring) :
  forallb re_dot s = true ->
  List.length (mask s) = List.length s
  /\ mask s
     = repeat 42%N (List.length s - 3) ++ skipn (List.length s - 3) s.
Proof.
  intro Hdots. split; [apply mask_length |].
  induction s as [| c r IH]; [reflexivity |].
  cbn [forallb] in Hdots. apply andb_true_iff in Hdots.
  destruct Hdots as [Hc Hr].
  destruct (Nat.le_gt_cases (List.length (c :: r)) 3) as [Hle | Hgt].
  - rewrite (mask_short (c :: r) Hle).
    replace (List.length (c :: r) - 3) with 0 by lia. reflexivity.
  - assert (followed_by_three r = true) as Hf.
    { destruct r as [| c1 [| c2 [| c3 r']]];
        try (simpl in Hgt; lia).
      cbn [forallb] in Hr.
      apply andb_true_iff in Hr. destruct Hr as [H1 Hr].
      apply andb_true_iff in Hr. destruct Hr as [H2 Hr].
      apply andb_true_iff in Hr. destruct Hr as [H3 _].
      cbn [followed_by_three]. rewrite H1, H2, H3. reflexivity. }
    cbn [mask]. rewrite Hc, Hf, (IH Hr). cbn [andb].
    cbn [List.length] in Hgt |- *.
    replace (S (List.length r) - 3) with (S (List.length r - 3)) by lia.
    reflexivity.
Qed.

(** *** Splitting and joining *)

Lemma split_at_not_nil (c : code_unit) (s : jsstring) : split_at c s <> [].
Proof.
  destruct s as [| x r]; simpl; [discriminate |].
  destruct (N.eqb x c); [discriminate |].
  destruct (split_at c r); discriminate.
Qed.

Lemma split_lines_split_at (s : jsstring) : split_lines s = split_at 10%N s.
Proof.
  induction s as [| x r IH]; [reflexivity |].
  simpl. rewrite IH. reflexivity.
Qed.

Lemma split_at_no_sep (c : code_unit) (a : jsstring) :
  ~ In c a -> split_at c a = [a].
Proof.
  induction a as [| x r IH]; intro Hn; [reflexivity |].
  simpl. destruct (N.eqb x c) eqn:E.
  - apply N.eqb_eq in E. exfalso. apply Hn. left. exact E.
  - rewrite IH; [reflexivity |]. intro H. apply Hn. right. exact H.
Qed.

Lemma split_at_sep (c : code_unit) (a b : jsstring) :
  ~ In c a -> split_at c (a ++ c :: b) = a :: split_at c b.
Proof.
  induction a as [| x r IH]; intro Hn.
  - simpl. rewrite N.eqb_refl. reflexivity.
  - simpl. destruct (N.eqb x c) eqn:E.
    + apply N.eqb_eq in E. exfalso. apply Hn. left. exact E.
    + rewrite IH; [reflexivity |]. intro H. apply Hn. right. exact H.
Qed.

Lemma split_at_pieces (c : code_unit) (s : jsstring) :
  Forall (fun p => ~ In c p) (split_at c s).
Proof.
  induction s as [| x r IH]; simpl.
  - constructor; [intros [] | constructor].
  - destruct (N.eqb x c) eqn:E.
    + constructor; [intros [] | exact IH].
    + destruct (split_at c r) as [| p ps].
      * constructor; [| constructor].
        intros [H | []]. subst x. rewrite N.eqb_refl in E. discriminate E.
      * inversion IH as [| q qs Hp Hps]; subst.
        constructor; [| exact Hps].
        intros [H | H]; [| exact (Hp H)].
        subst x. rewrite N.eqb_refl in E. discriminate E.
Qed.

Lemma split_at_forallb (f : code_unit -> bool) (c : code_unit)
    (s : jsstring) :
  forallb (forallb f) (split_at c s)
  = forallb (fun x => f x || N.eqb x c) s.
Proof.
  induction s as [| x r IH]; [reflexivity |].
  simpl. destruct (N.eqb x c) eqn:E.
  - simpl. rewrite IH, orb_true_r. reflexivity.
  - rewrite orb_false_r, <- IH.
    destruct (split_at c r) as [| p ps] eqn:Es.
    + exfalso. exact (split_at_not_nil c r Es).
    + simpl. rewrite andb_assoc. reflexivity.
Qed.

Lemma filter_nil_iff {A : Type} (p : A -> bool) (l : list A) :
  filter p l = [] <-> forallb (fun x => negb (p x)) l = true.
Proof.
  induction l as [| x l' IH]; simpl; [tauto |].
  destruct (p x); simpl; [| exact IH].
  split; discriminate.
Qed.

Lemma forallb_map_comp {A B : Type} (f : A -> B) (p : B -> bool)
    (l : list A) :
  forallb p (map f l) = forallb (fun x => p (f x)) l.
Proof.
  induction l as [| x l' IH]; [reflexivity |].
  simpl. rewrite IH. reflexivity.
Qed.

Lemma or_empty_some (s : jsstring) : or_empty (Some s) = s.
Proof.
  unfold or_empty. simpl. destruct s; reflexivity.
Qed.

Lemma truthy_trim (p : jsstring) :
  truthy (JStr (trim p)) = has_visible p.
Proof.
  simpl. destruct (has_visible p) eqn:E.
  - apply negb_true_iff. apply jsstring_eqb_neq.
    intro H. apply trim_nil_iff in H. rewrite H in E. discriminate E.
  - apply trim_nil_iff in E. rewrite E. reflexivity.
Qed.

Lemma allowedOrigins_normal (CORS_ORIGIN : option jsstring)
    (e : jsstring) :
  In e (allowedOrigins CORS_ORIGIN) ->
  e <> [] /\ trim e = e /\ ~ In COMMA e.
Proof.
  unfold allowedOrigins. intro H.
  apply filter_In in H. destruct H as [Hin Htruthy].
  apply in_map_iff in Hin. destruct Hin as (p & <- & Hp).
  split; [| split].
  - intro E. rewrite E in Htruthy. discriminate Htruthy.
  - apply trim_idempotent.
  - intro Hc. apply trim_In in Hc.
    pose proof (split_at_pieces COMMA (or_empty CORS_ORIGIN)) as Hall.
    rewrite Forall_forall in Hall. exact (Hall p Hp Hc).
Qed.

(** X5.  The origins of the allow-list are the trimmed comma-separated
    pieces of [CORS_ORIGIN] that are not blank; each one is a non-empty
    string without white space at its ends and without a comma. *)
Theorem allowedOrigins_entries (CORS_ORIGIN : option jsstring)
    (e : jsstring) :
  In e (allowedOrigins CORS_ORIGIN) <->
  (exists p, In p (split_at COMMA (or_empty CORS_ORIGIN))
             /\ has_visible p = true /\ e = trim p)
  /\ e <> [] /\ trim e = e /\ ~ In COMMA e.
Proof.
  split.
  - intro H. split; [| exact (allowedOrigins_normal CORS_ORIGIN e H)].
    unfold allowedOrigins in H. apply filter_In in H.
    destruct H as [Hin Htruthy].
    apply in_map_iff in Hin. destruct Hin as (p & <- & Hp).
    exists p. rewrite <- truthy_trim. repeat split; assumption.
  - intros ((p & Hp & Hvis & ->) & _).
    unfold allowedOrigins. apply filter_In. split.
    + apply in_map. exact Hp.
    + rewrite truthy_trim. exact Hvis.
Qed.

(** X6.  The allow-list is empty, and then [cors] is configured with
    ["*"] and the start-up log says so, exactly when [CORS_ORIGIN] is
    unset or holds nothing but commas and white space; otherwise [cors]
    gets the list itself. *)
Theorem cors_any_origin_iff (CORS_ORIGIN : option jsstring) :
  (allowedOrigins CORS_ORIGIN = [] <->
   forallb (fun c => is_trimmed c || N.eqb c COMMA) (or_empty CORS_ORIGIN)
   = true)
  /\ (allowedOrigins CORS_ORIGIN = [] ->
      cors_origin (allowedOrigins CORS_ORIGIN) = JStr (utf16 "*")
      /\ cors_startup_log (allowedOrigins CORS_ORIGIN)
         = [JStr (utf16 "🌍 CORS: * (أي مصدر)")])
  /\ (allowedOrigins CORS_ORIGIN <> [] ->
      cors_origin (allowedOrigins CORS_ORIGIN)
      = JArr (map JStr (allowedOrigins CORS_ORIGIN))
      /\ cors_startup_log (allowedOrigins CORS_ORIGIN)
         = [JStr (utf16 "🔐 CORS origins:");
            JStr (join (utf16 ", ") (allowedOrigins CORS_ORIGIN))])
  /\ allowedOrigins None = [].
Proof.
  split; [| split; [| split]].
  - unfold allowedOrigins. rewrite filter_nil_iff, forallb_map_comp.
    rewrite <- split_at_forallb.
    assert (forall l : list jsstring,
              forallb (fun x => negb (truthy (JStr (trim x)))) l
              = forallb (forallb is_trimmed) l) as Hsame.
    { induction l as [| p ps IH]; [reflexivity |].
      cbn [forallb]. rewrite IH. f_equal.
      rewrite truthy_trim.
      destruct (has_visible p) eqn:E; simpl.
      - destruct (forallb is_trimmed p) eqn:F; [| reflexivity].
        apply has_visible_false_iff in F. rewrite F in E. discriminate E.
      - apply has_visible_false_iff in E. rewrite E. reflexivity. }
    rewrite Hsame. tauto.
  - intro H. rewrite H. split; reflexivity.
  - intro H. unfold cors_origin, cors_startup_log.
    destruct (allowedOrigins CORS_ORIGIN) as [| e es];
      [exfalso; apply H; reflexivity |].
    split; reflexivity.
  - reflexivity.
Qed.

Lemma comma_space : utf16 ", " = [COMMA; 32%N].
Proof. vm_compute. reflexivity. Qed.

Lemma trim_leading_space (p : jsstring) : trim (32%N :: p) = trim p.
Proof. reflexivity. Qed.

Lemma map_trim_split_space (j : jsstring) :
  map trim (split_at COMMA (32%N :: j)) = map trim (split_at COMMA j).
Proof.
  cbn [split_at]. change (N.eqb 32 COMMA) with false. cbv iota.
  destruct (split_at COMMA j) as [| p ps] eqn:E.
  - exfalso. exact (split_at_not_nil COMMA j E).
  - cbn [map]. rewrite trim_leading_space. reflexivity.
Qed.

Lemma split_join_origins (l : list jsstring) :
  l <> [] ->
  (forall e, In e l -> e <> [] /\ trim e = e /\ ~ In COMMA e) ->
  map trim (split_at COMMA (join [COMMA; 32%N] l)) = l.
Proof.
  induction l as [| e rest IH]; intros Hne Hgood;
    [exfalso; apply Hne; reflexivity |].
  destruct (Hgood e (or_introl eq_refl)) as (_ & Htrim & Hcomma).
  destruct rest as [| e2 rest'].
  - cbn [join]. rewrite (split_at_no_sep COMMA e Hcomma).
    cbn [map]. rewrite Htrim. reflexivity.
  - change (join [COMMA; 32%N] (e :: e2 :: rest'))
      with (e ++ COMMA :: 32%N :: join [COMMA; 32%N] (e2 :: rest')).
    rewrite (split_at_sep COMMA e _ Hcomma).
    cbn [map]. rewrite Htrim, map_trim_split_space.
    rewrite IH; [reflexivity | discriminate |].
    intros x Hx. apply Hgood. right. exact Hx.
Qed.

Lemma filter_all {A : Type} (p : A -> bool) (l : list A) :
  (forall x, In x l -> p x = true) -> filter p l = l.
Proof.
  induction l as [| x l' IH]; intro H; [reflexivity |].
  simpl. rewrite (H x (or_introl eq_refl)), IH; [reflexivity |].
  intros y Hy. apply H. right. exact Hy.
Qed.

Lemma join_then_parse (l : list jsstring) :
  (forall e, In e l -> e <> [] /\ trim e = e /\ ~ In COMMA e) ->
  allowedOrigins (Some (join (utf16 ", ") l)) = l.
Proof.
  intro Hgood. rewrite comma_space.
  destruct l as [| e rest] eqn:El; [vm_compute; reflexivity |].
  rewrite <- El in *. unfold allowedOrigins. rewrite or_empty_some.
  rewrite split_join_origins;
    [| rewrite El; discriminate | exact Hgood].
  apply filter_all. intros x Hx.
  destruct (Hgood x Hx) as (Hne & _ & _).
  simpl. apply negb_true_iff. apply jsstring_eqb_neq. exact Hne.
Qed.

(** X7.  The start-up log prints the allow-list joined with [", "];
    reading such a line back as [CORS_ORIGIN] gives the same list, for
    every list of non-empty, trimmed, comma-free origins, and so for
    every list [allowedOrigins] computes: parsing its own printed form
    changes nothing. *)
Theorem allowedOrigins_join_round_trip (l : list jsstring)
    (CORS_ORIGIN : option jsstring) :
  ((forall e, In e l -> e <> [] /\ trim e = e /\ ~ In COMMA e) ->
   allowedOrigins (Some (join (utf16 ", ") l)) = l)
  /\ allowedOrigins
       (Some (join (utf16 ", ") (allowedOrigins CORS_ORIGIN)))
     = allowedOrigins CORS_ORIGIN.
Proof.
  split.
  - apply join_then_parse.
  - apply join_then_parse.
    intros e He. exact (allowedOrigins_normal CORS_ORIGIN e He).
Qed.

(** *** The lines of the text body *)

Lemma split_lines_line (a b : jsstring) :
  ~ In 10%N a -> split_lines (a ++ LF ++ b) = a :: split_lines b.
Proof.
  intro H. rewrite !split_lines_split_at.
  exact (split_at_sep 10%N a b H).
Qed.

Lemma literal_no_line_feed (s : jsstring) :
  forallb (fun c => negb (N.eqb c 10)) s = true -> ~ In 10%N s.
Proof.
  intros Hall Hin. rewrite forallb_forall in Hall.
  specialize (Hall _ Hin). discriminate Hall.
Qed.

Lemma literal_without (c : code_unit) (s : jsstring) :
  forallb (fun x => negb (N.eqb x c)) s = true -> ~ In c s.
Proof.
  intros Hall Hin. rewrite forallb_forall in Hall.
  specialize (Hall _ Hin). rewrite N.eqb_refl in Hall. discriminate Hall.
Qed.

Lemma split_lines_2 (a1 a2 r : jsstring) :
  ~ In 10%N a1 -> ~ In 10%N a2 ->
  split_lines (a1 ++ a2 ++ LF ++ r) = (a1 ++ a2) :: split_lines r.
Proof.
  intros H1 H2. rewrite <- split_lines_line.
  - rewrite <- !app_assoc. reflexivity.
  - intro H. apply in_app_or in H. tauto.
Qed.

Lemma split_lines_4 (a1 a2 a3 a4 r : jsstring) :
  ~ In 10%N a1 -> ~ In 10%N a2 -> ~ In 10%N a3 -> ~ In 10%N a4 ->
  split_lines (a1 ++ a2 ++ a3 ++ a4 ++ LF ++ r)
  = (a1 ++ a2 ++ a3 ++ a4) :: split_lines r.
Proof.
  intros H1 H2 H3 H4. rewrite <- split_lines_line.
  - rewrite <- !app_assoc. reflexivity.
  - intro H. repeat (apply in_app_or in H; destruct H as [H | H]); tauto.
Qed.

(** *** Counting the events of a trace *)

Lemma filter_none {A : Type} (p : A -> bool) (l : list A) :
  forallb (fun x => negb (p x)) l = true -> filter p l = [].
Proof. apply filter_nil_iff. Qed.

Lemma delivery_log_console (info : send_info) (e : event) :
  In e (delivery_log info) -> exists l, e = EvConsole l.
Proof.
  unfold delivery_log.
  destruct (info_message info) as [content |].
  { intros [<- | []]. eexists. reflexivity. }
  destruct (info_messageId info) as [id |]; [| intros []].
  destruct (truthy (JStr id)); [| intros []].
  intros [<- | []]. eexists. reflexivity.
Qed.

Lemma delivery_log_no_create (info : send_info) :
  forallb (fun e => negb (is_create e)) (delivery_log info) = true.
Proof.
  unfold delivery_log.
  destruct (info_message info); [reflexivity |].
  destruct (info_messageId info) as [id |]; [| reflexivity].
  destruct (truthy (JStr id)); reflexivity.
Qed.

Lemma count_after_verified (env : process_env) (o : smtp_options)
    (t : transport) (m : mail) (info : send_info) :
  filter is_send (trace_verified env o ++ EvSendMail t m :: delivery_log info)
  = [EvSendMail t m]
  /\ filter is_create
       (trace_verified env o ++ EvSendMail t m :: delivery_log info)
     = [EvCreateTransport o].
Proof.
  rewrite !filter_app. cbn [trace_verified filter is_send is_create app].
  rewrite (filter_none is_send _ (delivery_log_no_send info)).
  rewrite (filter_none is_create _ (delivery_log_no_create info)).
  split; reflexivity.
Qed.

(** The members of the four bodies. *)
Lemma response_ok_fields (msg : jsstring) :
  res_status (response_ok msg) = 200%N
  /\ json_field (response_ok msg) K_ok = JBool true
  /\ json_field (response_ok msg) K_message = JStr msg.
Proof. repeat split; vm_compute; reflexivity. Qed.

Lemma response_invalid_fields (e : jsstring) (es : list jsstring) :
  res_status (response_invalid (e :: es)) = 400%N
  /\ json_field (response_invalid (e :: es)) K_ok = JBool false
  /\ json_field (response_invalid (e :: es)) K_message = JStr e
  /\ json_field (response_invalid (e :: es)) K_errors
     = JArr (map JStr (e :: es)).
Proof.
  assert (jsstring_eqb K_ok K_message = false) as E1
    by (vm_compute; reflexivity).
  assert (jsstring_eqb K_ok K_errors = false) as E2
    by (vm_compute; reflexivity).
  assert (jsstring_eqb K_message K_errors = false) as E3
    by (vm_compute; reflexivity).
  unfold json_field, response_invalid. cbn [res_json res_status get].
  rewrite E1, E2, E3, !jsstring_eqb_refl.
  repeat split; reflexivity.
Qed.

Lemma response_failure_fields :
  res_status response_failure = 500%N
  /\ json_field response_failure K_ok = JBool false
  /\ json_field response_failure K_message = JStr MSG_FAILURE.
Proof. repeat split; vm_compute; reflexivity. Qed.

Section Behaviour.

Variable engine_ToString : jsval -> result jsstring.
Variable StringToNumber : jsstring -> spec_float.

Local Abbreviation handle :=
  (contact_handler engine_ToString StringToNumber).
Local Abbreviation options := (smtp_options_of StringToNumber).

(** X8.  When the name, email, phone and project-type strings hold no
    line feed, the text body has the four labelled lines and the
    separator line, followed by the lines of the message, whatever
    the message holds. *)
Theorem text_body_lines (fn ln em ph msg p : jsstring) (pt : jsval) :
  js_or pt (JStr DASH) = JStr p ->
  ~ In 10%N fn -> ~ In 10%N ln -> ~ In 10%N em -> ~ In 10%N ph ->
  ~ In 10%N p ->
  exists text,
    template_literal engine_ToString
      (text_template (JStr fn) (JStr ln) (JStr em) (JStr ph) pt (JStr msg))
    = Ok text
    /\ split_lines text
       = [ utf16 "الاسم: " ++ fn ++ utf16 " " ++ ln;
           utf16 "البريد: " ++ em;
           utf16 "الهاتف: " ++ ph;
           utf16 "نوع المشروع: " ++ p;
           utf16 "---" ]
         ++ split_lines msg.
Proof.
  intros Hp Hfn Hln Hem Hph Hpp.
  exists (text_body fn ln em ph p msg). split.
  - apply text_template_strings. exact Hp.
  - unfold text_body.
    rewrite split_lines_4;
      [| apply literal_no_line_feed; vm_compute; reflexivity
       | exact Hfn
       | apply literal_no_line_feed; vm_compute; reflexivity
       | exact Hln].
    rewrite split_lines_2;
      [| apply literal_no_line_feed; vm_compute; reflexivity | exact Hem].
    rewrite split_lines_2;
      [| apply literal_no_line_feed; vm_compute; reflexivity | exact Hph].
    rewrite split_lines_2;
      [| apply literal_no_line_feed; vm_compute; reflexivity | exact Hpp].
    rewrite split_lines_line;
      [| apply literal_no_line_feed; vm_compute; reflexivity].
    reflexivity.
Qed.

(** X10.  Every mail the handler sends has the fixed subject and
    carries the submitted strings as they came: the text and HTML
    bodies are the templates filled with the untrimmed, unescaped field
    values, and the project type is the submitted one or the dash. *)
Theorem sent_mail_content (w : world) (env : process_env) (b : jsobject)
    (t : transport) (m : mail) :
  In (EvSendMail t m) (snd (handle w env b [])) ->
  exists fn ln em ph p msg,
    get b K_firstName = JStr fn /\ get b K_lastName = JStr ln
    /\ get b K_email = JStr em /\ get b K_phone = JStr ph
    /\ get b K_message = JStr msg
    /\ (p = DASH /\ truthy (default_to (JStr []) (get b K_projectType))
                  = false
        \/ In p ALLOWED_TYPES /\ get b K_projectType = JStr p)
    /\ mail_subject m = SUBJECT
    /\ template_literal engine_ToString
         (text_template (get b K_firstName) (get b K_lastName)
            (get b K_email) (get b K_phone)
            (default_to (JStr []) (get b K_projectType))
            (get b K_message))
       = Ok (mail_text m)
    /\ template_literal engine_ToString
         (html_template (get b K_firstName) (get b K_lastName)
            (get b K_email) (get b K_phone)
            (default_to (JStr []) (get b K_projectType))
            (get b K_message))
       = Ok (mail_html m)
    /\ mail_text m = text_body fn ln em ph p msg
    /\ mail_html m = html_body fn ln em ph p msg.
Proof.
  intro Hin.
  destruct (sent_mail engine_ToString StringToNumber w env b t m Hin)
    as (fn & ln & em & ph & p & msg
        & E1 & E2 & E3 & E4 & E5 & Ep & -> & _ & Hv & _).
  exists fn, ln, em, ph, p, msg.
  repeat (split; [assumption |]).
  split.
  { apply validatePayload_nil_iff in Hv.
    destruct Hv as (_ & _ & _ & _ & _ & Hpt).
    unfold payload_of in Hpt.
    destruct (get_payload (get b K_firstName) (get b K_lastName)
                (get b K_email) (get b K_phone)
                (default_to (JStr []) (get b K_projectType))
                (get b K_message)) as (_ & _ & _ & _ & G5 & _).
    rewrite G5 in Hpt. unfold js_or in Ep.
    destruct (truthy (default_to (JStr []) (get b K_projectType))) eqn:Ht.
    - right. simpl in Hpt. apply negb_false_iff in Hpt.
      apply set_has_iff in Hpt. destruct Hpt as (t0 & Hin0 & Heq).
      rewrite Heq in Ep. injection Ep as <-.
      split; [exact Hin0 |].
      destruct (get b K_projectType);
        try discriminate Heq; try discriminate Ht; exact Heq.
    - left. injection Ep as <-. split; reflexivity. }
  split; [reflexivity |].
  rewrite E1, E2, E3, E4, E5.
  split; [apply text_template_strings; exact Ep |].
  split; [apply html_template_strings; exact Ep |].
  split; reflexivity.
Qed.

(** X11.  How [getTransporter] ends: it throws exactly what the
    creation of the SMTP transport throws, it returns the stream
    transport exactly when the creation succeeded and the verify step
    failed, and the SMTP transport, built from the options of the
    environment, exactly when both succeeded; a verify failure never
    leaves it. *)
Theorem getTransporter_outcome (w : world) (env : process_env) :
  (forall err,
     fst (getTransporter StringToNumber w env []) = Throw err <->
     smtp_create w (options env) = Some err)
  /\ (fst (getTransporter StringToNumber w env []) = Ok StreamTransport <->
      smtp_create w (options env) = None
      /\ exists err, smtp_verify w (options env) = Some err)
  /\ (forall o,
        fst (getTransporter StringToNumber w env []) = Ok (SmtpTransport o)
        <->
        o = options env
        /\ smtp_create w (options env) = None
        /\ smtp_verify w (options env) = None).
Proof.
  destruct (smtp_create w (options env)) as [e0 |] eqn:Hc.
  { rewrite (getTransporter_create_throws StringToNumber w env e0 Hc).
    simpl. split; [| split].
    - intro err. split; intro H; injection H as <-; reflexivity.
    - split; [discriminate | intros (H & _); discriminate H].
    - intro o. split; [discriminate | intros (_ & H & _); discriminate H]. }
  destruct (smtp_verify w (options env)) as [e1 |] eqn:Hv.
  { rewrite (getTransporter_verify_fails StringToNumber w env e1 Hc Hv).
    simpl. split; [| split].
    - intro err. split; discriminate.
    - split; [intros _; split; [reflexivity | exists e1; reflexivity]
             | reflexivity].
    - intro o. split; [discriminate | intros (_ & _ & H); discriminate H]. }
  rewrite (getTransporter_verified StringToNumber w env Hc Hv).
  simpl. split; [| split].
  - intro err. split; discriminate.
  - split; [discriminate | intros (_ & e & H); discriminate H].
  - intro o. split.
    + intro H. injection H as <-. repeat split.
    + intros (-> & _ & _). reflexivity.
Qed.

(** X12.  Credentials are handed to the SMTP transport exactly when
    both [SMTP_USER] and [SMTP_PASS] are defined and not empty, and
    then they are these two; without [SMTP_PORT] the port is 587 and
    the transport is not secure.  The line logged after a successful
    verify names the masked [SMTP_USER] whenever that variable is set,
    also when no credentials were handed over, and ["(no-auth)"] only
    when it is not set. *)
Theorem credentials_and_ready_log (w : world) (env : process_env) :
  (opt_auth (options env)
   = JObj [(K_user, env_get (SMTP_USER env));
           (K_pass, env_get (SMTP_PASS env))]
   <-> is_set (SMTP_USER env) = true /\ is_set (SMTP_PASS env) = true)
  /\ (opt_auth (options env) = JUndefined
      <-> is_set (SMTP_USER env) = false \/ is_set (SMTP_PASS env) = false)
  /\ (is_set (SMTP_PORT env) = false ->
      opt_port (options env) = binary64 587
      /\ opt_secure (options env) = false)
  /\ (smtp_create w (options env) = None ->
      smtp_verify w (options env) = None ->
      snd (getTransporter StringToNumber w env [])
      = [ EvCreateTransport (options env); EvVerify (options env);
          EvConsole
            (LogSmtpReady (env_get (SMTP_HOST env)) (opt_port (options env))
               (JStr (if is_set (SMTP_USER env)
                      then mask (or_empty (SMTP_USER env))
                      else NO_AUTH))) ]).
Proof.
  assert (truthy (js_and (env_get (SMTP_USER env)) (env_get (SMTP_PASS env)))
          = is_set (SMTP_USER env) && is_set (SMTP_PASS env)) as Hauth.
  { unfold js_and. rewrite <- !truthy_env_get.
    destruct (truthy (env_get (SMTP_USER env))) eqn:E; simpl;
      [reflexivity | exact E]. }
  split; [| split; [| split]].
  - unfold smtp_options_of. cbn [opt_auth]. rewrite Hauth.
    destruct (is_set (SMTP_USER env)), (is_set (SMTP_PASS env)); simpl;
      (split; [intro H; try discriminate H; split; reflexivity
              | intros [H1 H2]; try discriminate H1; try discriminate H2;
                reflexivity]).
  - unfold smtp_options_of. cbn [opt_auth]. rewrite Hauth.
    destruct (is_set (SMTP_USER env)), (is_set (SMTP_PASS env)); simpl;
      (split; [intro H; try discriminate H;
               try (left; reflexivity); right; reflexivity
              | intros [H | H]; try discriminate H; reflexivity]).
  - intro Hport. unfold smtp_options_of. cbn [opt_port opt_secure].
    assert (smtp_port StringToNumber env = binary64 587) as Hp.
    { unfold smtp_port, is_set in *.
      destruct (SMTP_PORT env) as [s |]; [| reflexivity].
      simpl. rewrite Hport. reflexivity. }
    rewrite Hp. split; [reflexivity | vm_compute; reflexivity].
  - intros Hc Hv.
    rewrite (getTransporter_verified StringToNumber w env Hc Hv).
    unfold trace_verified. cbn [snd]. do 3 f_equal.
    unfold smtp_options_of at 1. cbn [opt_host].
    f_equal. unfold js_or, smtp_user_or_empty, or_empty, is_set.
    destruct (SMTP_USER env) as [u |]; [| reflexivity].
    cbn [truthy]. destruct (jsstring_eqb u []) eqn:Eu; cbn [negb].
    + reflexivity.
    + apply jsstring_eqb_neq in Eu.
      assert (jsstring_eqb (mask u) [] = false) as Em.
      { apply jsstring_eqb_neq. intro H.
        apply Eu. apply length_zero_iff_nil.
        rewrite <- (mask_length u), H. reflexivity. }
      rewrite Em. reflexivity.
Qed.

(** X13.  One request creates the SMTP transport at most once and
    sends at most one mail: the transport is created exactly for the
    valid submissions that are not honeypot hits, and a mail is handed
    to [sendMail] exactly for those of them for which the creation did
    not throw. *)
Theorem at_most_one_mail (w : world) (env : process_env) (b : jsobject) :
  List.length (filter is_send (snd (handle w env b []))) <= 1
  /\ List.length (filter is_create (snd (handle w env b []))) <= 1
  /\ (List.length (filter is_create (snd (handle w env b []))) = 1
      <-> honeypot (get b K_company) = false
          /\ validatePayload (payload_of b) = [])
  /\ (List.length (filter is_send (snd (handle w env b []))) = 1
      <-> honeypot (get b K_company) = false
          /\ validatePayload (payload_of b) = []
          /\ smtp_create w (options env) = None).
Proof.
  destruct (honeypot (get b K_company)) eqn:Hh.
  { rewrite (handle_honeypot engine_ToString StringToNumber w env b Hh).
    simpl. repeat split; try lia; try discriminate;
      intros (H & _); discriminate H. }
  destruct (validatePayload (payload_of b)) as [| e es] eqn:Hv.
  2: { rewrite (handle_invalid engine_ToString StringToNumber w env b Hh);
         [| rewrite Hv; discriminate].
       simpl. repeat split; try lia; try discriminate;
         intros (_ & H); try discriminate H;
         destruct H as (H & _); discriminate H. }
  destruct (handle_valid engine_ToString StringToNumber w env b Hh Hv)
    as (fn & ln & em & ph & p & msg & _ & _ & _ & _ & _ & _ & _ & Hrun).
  cbv zeta in Hrun.
  destruct (smtp_create w (options env)) as [e0 |].
  { rewrite Hrun. simpl. repeat split; try lia; try discriminate.
    intros (_ & _ & H). discriminate H. }
  destruct (smtp_verify w (options env)) as [e1 |].
  { rewrite Hrun. simpl. repeat split; lia. }
  destruct (smtp_send w (options env) (contact_mail env fn ln em ph p msg))
    as [info | e2]; rewrite Hrun; cbn [snd].
  - destruct (count_after_verified env (options env)
                (SmtpTransport (options env))
                (contact_mail env fn ln em ph p msg) info) as (Hs & Hc).
    rewrite Hs, Hc. simpl. repeat split; lia.
  - simpl. repeat split; lia.
Qed.

(** X14.  A mail goes over SMTP only through a transport whose verify
    step succeeded, and to the stream transport only after a verify
    failure; the stream transport is created exactly when a valid
    submission that is not a honeypot hit meets a created SMTP
    transport whose verify step fails. *)
Theorem send_follows_verify (w : world) (env : process_env) (b : jsobject) :
  (forall t m,
     In (EvSendMail t m) (snd (handle w env b [])) ->
     t = SmtpTransport (options env)
     /\ smtp_verify w (options env) = None
     \/ t = StreamTransport
        /\ exists err, smtp_verify w (options env) = Some err)
  /\ (In EvCreateStreamTransport (snd (handle w env b [])) <->
      honeypot (get b K_company) = false
      /\ validatePayload (payload_of b) = []
      /\ smtp_create w (options env) = None
      /\ exists err, smtp_verify w (options env) = Some err).
Proof.
  split.
  { intros t m Hin.
    destruct (sent_mail engine_ToString StringToNumber w env b t m Hin)
      as (_ & _ & _ & _ & _ & _ & _ & _ & _ & _ & _ & _ & _ & _ & _ & _
          & [[He ->] | [Hv ->]]).
    - right. split; [reflexivity | exact He].
    - left. split; [reflexivity | exact Hv]. }
  destruct (honeypot (get b K_company)) eqn:Hh.
  { rewrite (handle_honeypot engine_ToString StringToNumber w env b Hh).
    simpl. split; [intros [] | intros (H & _); discriminate H]. }
  destruct (validatePayload (payload_of b)) as [| e es] eqn:Hv.
  2: { rewrite (handle_invalid engine_ToString StringToNumber w env b Hh);
         [| rewrite Hv; discriminate].
       simpl. split; [intros [] | intros (_ & H & _); discriminate H]. }
  destruct (handle_valid engine_ToString StringToNumber w env b Hh Hv)
    as (fn & ln & em & ph & p & msg & _ & _ & _ & _ & _ & _ & _ & Hrun).
  cbv zeta in Hrun.
  destruct (smtp_create w (options env)) as [e0 |].
  { rewrite Hrun. simpl. split.
    - intros [H | [H | []]]; discriminate H.
    - intros (_ & _ & H & _). discriminate H. }
  destruct (smtp_verify w (options env)) as [e1 |].
  { rewrite Hrun. simpl. split.
    - intros _. repeat split. exists e1. reflexivity.
    - intros _. do 4 right. left. reflexivity. }
  destruct (smtp_send w (options env) (contact_mail env fn ln em ph p msg))
    as [info | e2]; rewrite Hrun; cbn [snd].
  - split; [| intros (_ & _ & _ & e & H); discriminate H].
    intro H. exfalso. apply in_app_or in H.
    destruct H as [H | [H | H]].
    + simpl in H. destruct H as [H | [H | [H | []]]]; discriminate H.
    + discriminate H.
    + destruct (delivery_log_console info _ H) as (l & Hl).
      discriminate Hl.
  - split; [| intros (_ & _ & _ & e & H); discriminate H].
    intro H. exfalso. apply in_app_or in H.
    destruct H as [H | [H | [H | []]]].
    + simpl in H. destruct H as [H | [H | [H | []]]]; discriminate H.
    + discriminate H.
    + discriminate H.
Qed.

(** X15.  The handler answers every submission with status 200, 400
    or 500, with [ok] true exactly for 200 and a string as [message].
    It answers 400, with the validator's list as [errors], exactly when
    the honeypot did not fire and the validator found an error; and 500
    exactly when a valid submission that is not a honeypot hit meets a
    throwing creation of the SMTP transport or a throwing SMTP send. *)
Theorem status_classification (w : world) (env : process_env)
    (b : jsobject) :
  exists r tr,
    handle w env b [] = (Ok r, tr)
    /\ (res_status r = 200%N \/ res_status r = 400%N
        \/ res_status r = 500%N)
    /\ json_field r K_ok = JBool (N.eqb (res_status r) 200)
    /\ (exists s, json_field r K_message = JStr s)
    /\ (res_status r = 400%N <->
        honeypot (get b K_company) = false
        /\ validatePayload (payload_of b) <> [])
    /\ (res_status r = 400%N ->
        json_field r K_errors
        = JArr (map JStr (validatePayload (payload_of b))))
    /\ (res_status r = 500%N <->
        honeypot (get b K_company) = false
        /\ validatePayload (payload_of b) = []
        /\ ((exists err, smtp_create w (options env) = Some err)
            \/ exists m err,
                 In (EvSendMail (SmtpTransport (options env)) m) tr
                 /\ smtp_send w (options env) m = Throw err)).
Proof.
  destruct (honeypot (get b K_company)) eqn:Hh.
  { exists (response_ok MSG_RECEIVED), [].
    destruct (response_ok_fields MSG_RECEIVED) as (Hs & Hok & Hmsg).
    split; [apply handle_honeypot; exact Hh |].
    rewrite Hs, Hok, Hmsg.
    split; [left; reflexivity |]. split; [reflexivity |].
    split; [exists MSG_RECEIVED; reflexivity |].
    split; [split; [discriminate | intros (H & _); discriminate H] |].
    split; [discriminate |].
    split; [discriminate | intros (H & _); discriminate H]. }
  destruct (validatePayload (payload_of b)) as [| e es] eqn:Hv.
  2: { exists (response_invalid (e :: es)), [].
       destruct (response_invalid_fields e es) as (Hs & Hok & Hmsg & Herr).
       split.
       { rewrite <- Hv. apply handle_invalid; [exact Hh |].
         rewrite Hv. discriminate. }
       rewrite Hs, Hok, Hmsg, Herr.
       split; [right; left; reflexivity |]. split; [reflexivity |].
       split; [exists e; reflexivity |].
       split; [split; [intros _; split; [reflexivity | discriminate]
                      | reflexivity] |].
       split; [reflexivity |].
       split; [discriminate | intros (_ & H & _); discriminate H]. }
  destruct (handle_valid engine_ToString StringToNumber w env b Hh Hv)
    as (fn & ln & em & ph & p & msg & _ & _ & _ & _ & _ & _ & _ & Hrun).
  cbv zeta in Hrun.
  destruct (response_ok_fields MSG_SUCCESS) as (Hs2 & Hok2 & Hmsg2).
  destruct response_failure_fields as (Hs5 & Hok5 & Hmsg5).
  destruct (smtp_create w (options env)) as [e0 |] eqn:Hc.
  { eexists _, _. split; [exact Hrun |].
    rewrite Hs5, Hok5, Hmsg5.
    split; [right; right; reflexivity |]. split; [reflexivity |].
    split; [exists MSG_FAILURE; reflexivity |].
    split; [split; [discriminate
                   | intros (_ & H); exfalso; apply H; reflexivity] |].
    split; [discriminate |].
    split; [| reflexivity].
    intros _. repeat split. left. exists e0. reflexivity. }
  destruct (smtp_verify w (options env)) as [e1 |] eqn:Hver.
  { eexists _, _. split; [exact Hrun |].
    rewrite Hs2, Hok2, Hmsg2.
    split; [left; reflexivity |]. split; [reflexivity |].
    split; [exists MSG_SUCCESS; reflexivity |].
    split; [split; [discriminate
                   | intros (_ & H); exfalso; apply H; reflexivity] |].
    split; [discriminate |].
    split; [discriminate |].
    intros (_ & _ & [(err & H) | (m & err & Hin & _)]);
      [discriminate H |].
    exfalso. apply only_send in Hin; try reflexivity.
    destruct Hin as [Ht _]. discriminate Ht. }
  destruct (smtp_send w (options env) (contact_mail env fn ln em ph p msg))
    as [info | e2] eqn:Hsend.
  - eexists _, _. split; [exact Hrun |].
    rewrite Hs2, Hok2, Hmsg2.
    split; [left; reflexivity |]. split; [reflexivity |].
    split; [exists MSG_SUCCESS; reflexivity |].
    split; [split; [discriminate
                   | intros (_ & H); exfalso; apply H; reflexivity] |].
    split; [discriminate |].
    split; [discriminate |].
    intros (_ & _ & [(err & H) | (m & err & Hin & Hthrow)]);
      [discriminate H |].
    exfalso. apply only_send in Hin;
      try reflexivity; try apply delivery_log_no_send.
    destruct Hin as [_ ->]. rewrite Hsend in Hthrow. discriminate Hthrow.
  - eexists _, _. split; [exact Hrun |].
    rewrite Hs5, Hok5, Hmsg5.
    split; [right; right; reflexivity |]. split; [reflexivity |].
    split; [exists MSG_FAILURE; reflexivity |].
    split; [split; [discriminate
                   | intros (_ & H); exfalso; apply H; reflexivity] |].
    split; [discriminate |].
    split; [| reflexivity].
    intros _. repeat split. right.
    exists (contact_mail env fn ln em ph p msg), e2.
    split; [| exact Hsend].
    apply in_or_app. right. left. reflexivity.
Qed.

End Behaviour.

(** ** The properties at sample inputs *)

Lemma missing_required_field_rejected_witness :
  missing_or_blank (get blank_company K_firstName)
  /\ honeypot (get blank_company K_company) = false
  /\ In ERR_FIRST_NAME (validatePayload blank_company)
  /\ exists errors,
       contact_handler sample_ToString sample_StringToNumber
         world_smtp_ready env_smtp blank_company []
       = (Ok (response_invalid errors), [])
       /\ In ERR_FIRST_NAME errors.
Proof.
  assert (missing_or_blank (get blank_company K_firstName)) as Hm
    by (left; vm_compute; reflexivity).
  assert (honeypot (get blank_company K_company) = false) as Hh
    by (vm_compute; reflexivity).
  destruct (missing_required_field_rejected
              sample_ToString sample_StringToNumber
              world_smtp_ready env_smtp blank_company
              K_firstName ERR_FIRST_NAME)
    as (Hin & _ & Hrun).
  - left. reflexivity.
  - exact Hm.
  - split; [exact Hm |]. split; [exact Hh |]. split; [exact Hin |].
    destruct (Hrun Hh) as (errors & Hr & Hi & _).
    exists errors. split; [exact Hr | exact Hi].
Defined.

(** The claim C1 as the specification words it fails when a bot fills
    the honeypot: [firstName] is missing and the answer is 200. *)
Lemma missing_field_bot_counterexample :
  missing_or_blank (get bot_submission K_firstName)
  /\ contact_handler sample_ToString sample_StringToNumber
       world_smtp_ready env_smtp bot_submission []
     = (Ok {| res_status := 200;
              res_json := JObj [(K_ok, JBool true);
                                (K_message, JStr MSG_RECEIVED)] |},
        [])
  /\ 200%N <> 400%N.
Proof.
  split; [left; vm_compute; reflexivity |].
  split; [vm_compute; reflexivity | discriminate].
Defined.

Lemma honeypot_acknowledged_witness :
  get bot_submission K_company = JStr (utf16 "Acme")
  /\ trim (utf16 "Acme") <> []
  /\ contact_handler sample_ToString sample_StringToNumber
       world_smtp_ready env_smtp bot_submission []
     = (Ok (response_ok MSG_RECEIVED), []).
Proof.
  assert (trim (utf16 "Acme") <> []) as Ht
    by (vm_compute; discriminate).
  split; [reflexivity |]. split; [exact Ht |].
  apply (honeypot_acknowledged sample_ToString sample_StringToNumber
           world_smtp_ready env_smtp bot_submission (utf16 "Acme")).
  - reflexivity.
  - exact Ht.
Defined.

(** The claim C2 as the specification words it fails for a company
    field that is a non-empty string of white space: the submission is
    validated (400 for an otherwise empty body) and, when it is valid,
    its mail is sent. *)
Lemma honeypot_blank_company_counterexample :
  get blank_company K_company = JStr [32%N]
  /\ get sara_blank_company K_company = JStr [32%N]
  /\ [32%N] <> @nil code_unit
  /\ contact_handler sample_ToString sample_StringToNumber
       world_smtp_ready env_smtp blank_company []
     = (Ok {| res_status := 400;
              res_json :=
                JObj [(K_ok, JBool false);
                      (K_message, JStr ERR_FIRST_NAME);
                      (K_errors,
                       JArr (map JStr [ERR_FIRST_NAME; ERR_LAST_NAME;
                                       ERR_EMAIL; ERR_PHONE;
                                       ERR_MESSAGE]))] |},
        [])
  /\ exists t m,
       In (EvSendMail t m)
          (snd (contact_handler sample_ToString sample_StringToNumber
                  world_smtp_ready env_smtp sara_blank_company [])).
Proof.
  split; [vm_compute; reflexivity |].
  split; [vm_compute; reflexivity |].
  split; [discriminate |].
  split; [vm_compute; reflexivity |].
  apply send_happens; vm_compute; reflexivity.
Defined.

Lemma verify_failure_falls_back_witness :
  validatePayload (payload_of sara) = []
  /\ smtp_verify world_verify_fails
       (smtp_options_of sample_StringToNumber env_smtp) = Some some_error
  /\ fst (getTransporter sample_StringToNumber world_verify_fails env_smtp [])
     = Ok StreamTransport
  /\ exists tr,
       contact_handler sample_ToString sample_StringToNumber
         world_verify_fails env_smtp sara []
       = (Ok (response_ok MSG_SUCCESS), tr).
Proof.
  assert (validatePayload (payload_of sara) = []) as Hv
    by (vm_compute; reflexivity).
  destruct (verify_failure_falls_back
              sample_ToString sample_StringToNumber
              world_verify_fails env_smtp sara some_error)
    as (Hg & tr & Hrun & _).
  - exact Hv.
  - reflexivity.
  - reflexivity.
  - split; [exact Hv |]. split; [reflexivity |].
    split; [rewrite Hg; reflexivity |].
    assert (honeypot (get sara K_company) = false) as Hh
      by (vm_compute; reflexivity).
    rewrite Hh in Hrun.
    exists tr. exact Hrun.
Defined.

Lemma project_type_validation_witness :
  validatePayload sara_blog = [ERR_PROJECT_TYPE]
  /\ validatePayload sara = []
  /\ validatePayload sara_no_type = [].
Proof.
  assert (forall b, b = sara_blog \/ b = sara \/ b = sara_no_type ->
          reqStr (get b K_firstName) = true
          /\ reqStr (get b K_lastName) = true
          /\ reqStr (get b K_email) = true
          /\ reqStr (get b K_phone) = true
          /\ reqStr (get b K_message) = true) as Hreq.
  { intros b [-> | [-> | ->]]; repeat split; vm_compute; reflexivity. }
  split; [| split].
  - destruct (Hreq sara_blog) as (H1 & H2 & H3 & H4 & H5);
      [left; reflexivity |].
    destruct (project_type_validation sara_blog H1 H2 H3 H4 H5)
      as (_ & Hbad & _ & _).
    apply Hbad.
    + vm_compute. reflexivity.
    + intros t Hin Heq. vm_compute in Hin, Heq.
      repeat (destruct Hin as [<- | Hin]; [discriminate Heq |]).
      exact Hin.
  - destruct (Hreq sara) as (H1 & H2 & H3 & H4 & H5);
      [right; left; reflexivity |].
    destruct (project_type_validation sara H1 H2 H3 H4 H5)
      as (_ & _ & Hgood & _).
    apply Hgood. right. right. exists (utf16 "landing").
    split; [left; reflexivity | reflexivity].
  - destruct (Hreq sara_no_type) as (H1 & H2 & H3 & H4 & H5);
      [right; right; reflexivity |].
    destruct (project_type_validation sara_no_type H1 H2 H3 H4 H5)
      as (_ & _ & Hgood & _).
    apply Hgood. left. vm_compute. reflexivity.
Defined.

Lemma errors_collected_in_order_witness :
  honeypot (get blank_company K_company) = false
  /\ validatePayload (payload_of blank_company)
     = [ERR_FIRST_NAME; ERR_LAST_NAME; ERR_EMAIL; ERR_PHONE; ERR_MESSAGE]
  /\ contact_handler sample_ToString sample_StringToNumber
       world_smtp_ready env_smtp blank_company []
     = (Ok {| res_status := 400;
              res_json :=
                JObj [(K_ok, JBool false);
                      (K_message, JStr ERR_FIRST_NAME);
                      (K_errors,
                       JArr (map JStr [ERR_FIRST_NAME; ERR_LAST_NAME;
                                       ERR_EMAIL; ERR_PHONE;
                                       ERR_MESSAGE]))] |},
        []).
Proof.
  assert (honeypot (get blank_company K_company) = false) as Hh
    by (vm_compute; reflexivity).
  assert (validatePayload (payload_of blank_company)
          = [ERR_FIRST_NAME; ERR_LAST_NAME; ERR_EMAIL; ERR_PHONE;
             ERR_MESSAGE]) as Hv
    by (vm_compute; reflexivity).
  split; [exact Hh |]. split; [exact Hv |].
  destruct (errors_collected_in_order
              sample_ToString sample_StringToNumber
              world_smtp_ready env_smtp blank_company)
    as (_ & _ & Hrun).
  exact (Hrun Hh _ _ Hv).
Defined.

Lemma sara_text_body_witness :
  smtp_create world_smtp_ready
    (smtp_options_of sample_StringToNumber env_smtp) = None
  /\ exists t m,
       In (EvSendMail t m)
          (snd (contact_handler sample_ToString sample_StringToNumber
                  world_smtp_ready env_smtp sara []))
       /\ mail_text m = sara_text.
Proof.
  split; [reflexivity |].
  destruct (sara_text_body sample_ToString sample_StringToNumber
              world_smtp_ready env_smtp)
    as (_ & _ & Hall & Hex & _).
  destruct (Hex eq_refl) as (t & m & Hin).
  exists t, m. split; [exact Hin | exact (Hall t m Hin)].
Defined.


Lemma mail_addresses_witness :
  exists t m,
    In (EvSendMail t m)
       (snd (contact_handler sample_ToString sample_StringToNumber
               world_smtp_ready env_smtp sara []))
    /\ mail_from m = str "owner@example.com"
    /\ mail_to m = str "owner@example.com"
    /\ mail_replyTo m = str "sara@example.com".
Proof.
  destruct (mail_addresses sample_ToString sample_StringToNumber
              world_smtp_ready env_smtp sara)
    as (Hall & Hex).
  destruct Hex as (t & m & Hin); try (vm_compute; reflexivity).
  exists t, m. split; [exact Hin |].
  destruct (Hall t m Hin) as (Hf & Ht & Hr).
  rewrite Hf, Ht, Hr. repeat split; vm_compute; reflexivity.
Defined.

Lemma non_string_required_field_witness :
  typeof (get numeric_first_name K_firstName) = TyNumber
  /\ In ERR_FIRST_NAME (validatePayload numeric_first_name).
Proof.
  split; [vm_compute; reflexivity |].
  apply (non_string_required_field numeric_first_name
           K_firstName ERR_FIRST_NAME).
  - left. reflexivity.
  - vm_compute. discriminate.
Defined.

Example allowedOrigins_untidy :
  allowedOrigins (Some untidy_origins) = two_origins.
Proof. vm_compute. reflexivity. Qed.

Lemma mask_hides_all_but_last_three_witness :
  forallb re_dot (utf16 "owner@example.com") = true
  /\ mask (utf16 "owner@example.com") = utf16 "**************com".
Proof.
  assert (forallb re_dot (utf16 "owner@example.com") = true) as Hd
    by (vm_compute; reflexivity).
  split; [exact Hd |].
  destruct (mask_hides_all_but_last_three (utf16 "owner@example.com") Hd)
    as (_ & Hm).
  rewrite Hm. vm_compute. reflexivity.
Defined.

Lemma allowedOrigins_join_round_trip_witness :
  (forall e, In e two_origins ->
     e <> [] /\ trim e = e /\ ~ In COMMA e)
  /\ allowedOrigins (Some (join (utf16 ", ") two_origins)) = two_origins.
Proof.
  assert (forall e, In e two_origins ->
            e <> [] /\ trim e = e /\ ~ In COMMA e) as Hgood.
  { intros e [<- | [<- | []]]; repeat split;
      try (vm_compute; discriminate); try (vm_compute; reflexivity);
      apply (literal_without COMMA); vm_compute; reflexivity. }
  split; [exact Hgood |].
  destruct (allowedOrigins_join_round_trip two_origins None) as (H & _).
  exact (H Hgood).
Defined.

Lemma text_body_lines_witness :
  exists text,
    template_literal sample_ToString
      (text_template (str "Sara") (str "Ali") (str "sara@example.com")
         (str "0500000000") (str "landing")
         (JStr (utf16 "Hello" ++ LF ++ utf16 "again")))
    = Ok text
    /\ split_lines text
       = [ utf16 "الاسم: " ++ utf16 "Sara" ++ utf16 " " ++ utf16 "Ali";
           utf16 "البريد: " ++ utf16 "sara@example.com";
           utf16 "الهاتف: " ++ utf16 "0500000000";
           utf16 "نوع المشروع: " ++ utf16 "landing";
           utf16 "---" ]
         ++ split_lines (utf16 "Hello" ++ LF ++ utf16 "again").
Proof.
  apply (text_body_lines sample_ToString
           (utf16 "Sara") (utf16 "Ali") (utf16 "sara@example.com")
           (utf16 "0500000000") (utf16 "Hello" ++ LF ++ utf16 "again")
           (utf16 "landing") (str "landing"));
    try (vm_compute; reflexivity);
    apply literal_no_line_feed; vm_compute; reflexivity.
Defined.

Lemma sent_mail_content_witness :
  exists t m,
    In (EvSendMail t m)
       (snd (contact_handler sample_ToString sample_StringToNumber
               world_smtp_ready env_smtp sara []))
    /\ mail_subject m = SUBJECT
    /\ mail_text m = sara_text.
Proof.
  destruct (send_happens sample_ToString sample_StringToNumber
              world_smtp_ready env_smtp sara)
    as (t & m & Hin); try (vm_compute; reflexivity).
  exists t, m. split; [exact Hin |].
  destruct (sent_mail_content sample_ToString sample_StringToNumber
              world_smtp_ready env_smtp sara t m Hin)
    as (fn & ln & em & ph & p & msg
        & _ & _ & _ & _ & _ & _ & Hsub & Htext & _).
  split; [exact Hsub |].
  assert (template_literal sample_ToString
            (text_template (get sara K_firstName) (get sara K_lastName)
               (get sara K_email) (get sara K_phone)
               (default_to (JStr []) (get sara K_projectType))
               (get sara K_message))
          = Ok sara_text) as Hs by (vm_compute; reflexivity).
  rewrite Hs in Htext. injection Htext as <-. reflexivity.
Defined.

(** The claim C4 as the specification words it fails for
    [projectType: false]: the value is present, is not the empty
    string and is none of the six entries, yet the validator returns
    the empty list and the mail is sent. *)
Lemma project_type_false_counterexample :
  get sara_false_type K_projectType = JBool false
  /\ (forall t, In t ALLOWED_TYPES -> JBool false <> JStr t)
  /\ reqStr (get sara_false_type K_firstName) = true
  /\ reqStr (get sara_false_type K_lastName) = true
  /\ reqStr (get sara_false_type K_email) = true
  /\ reqStr (get sara_false_type K_phone) = true
  /\ reqStr (get sara_false_type K_message) = true
  /\ validatePayload sara_false_type = []
  /\ fst (contact_handler sample_ToString sample_StringToNumber
            world_smtp_ready env_smtp sara_false_type [])
     = Ok (response_ok MSG_SUCCESS).
Proof.
  split; [vm_compute; reflexivity |].
  split; [intros t _; discriminate |].
  repeat split; vm_compute; reflexivity.
Defined.


Lemma validatePayload_twice_in_store_witness :
  validatePayload_in_store blank_company initial_store
  = (0, {| allowed_members := ALLOWED_TYPES;
           arrays := [validatePayload blank_company] |})
  /\ validatePayload_in_store blank_company
       {| allowed_members := ALLOWED_TYPES;
          arrays := [validatePayload blank_company] |}
     = (1, {| allowed_members := ALLOWED_TYPES;
              arrays := [validatePayload blank_company;
                         validatePayload blank_company] |})
  /\ 0 <> 1
  /\ array_at {| allowed_members := ALLOWED_TYPES;
                 arrays := [validatePayload blank_company;
                            validatePayload blank_company] |} 0
     = Some (validatePayload blank_company).
Proof.
  assert (validatePayload_in_store blank_company initial_store
          = (0, {| allowed_members := ALLOWED_TYPES;
                   arrays := [validatePayload blank_company] |})) as H1
    by (vm_compute; reflexivity).
  assert (validatePayload_in_store blank_company
            {| allowed_members := ALLOWED_TYPES;
               arrays := [validatePayload blank_company] |}
          = (1, {| allowed_members := ALLOWED_TYPES;
                   arrays := [validatePayload blank_company;
                              validatePayload blank_company] |})) as H2
    by (vm_compute; reflexivity).
  split; [exact H1 |]. split; [exact H2 |].
  destruct (validatePayload_twice_in_store blank_company _ _ _ _ _ H1 H2)
    as (Hne & (errors & _ & Ha & _ & Hv) & _).
  split; [exact Hne |].
  rewrite Ha, (Hv eq_refl). reflexivity.
Defined.
